(** * AI Model Generator (Blender add-on): provider adapter and executor

    A shallow embedding of [ai_model_generator.py]: the [AIGEN_OT_generate]
    operator, its five provider calls, the clean-up of the returned text and
    the execution of the script in the host scene.

    Python values are dynamically typed, so the values that come out of a
    parsed JSON body are modelled by one inductive type [pyval], and every
    operation the source applies to them ([in], [len], subscripting,
    [.keys()], [.get], [.startswith], [.split], [.strip]) is a function
    that either returns or raises, as the interpreter does.  Strings are
    sequences of Unicode code points.

    What the program prints is not kept, but a [print] can raise: the
    console refuses a lone surrogate, which a JSON body can carry into the
    generated text and a script into the text of its exception.  The
    prints of such texts are modelled ([py_print]), and so is [str(e)] for
    an exception of the script, whose [__str__] may raise.  The prints of
    literals, of numbers, of [repr]s (which escape surrogates) and of
    [response.text] (decoded by [requests] with replacement characters)
    cannot raise and are left out, as is [traceback.print_exc], which
    writes to the error stream, where what cannot be encoded is
    escaped. *)

From Stdlib Require Import String Ascii ZArith NArith QArith List Lia.
From Stdlib Require Import Numbers.DecimalString.
From stdpp Require Import base option list gmap.
From Equations Require Import Equations.

Set Default Proof Using "Type".
Local Set Warnings "-register-all".
Local Open Scope string_scope.
Local Open Scope list_scope.

(* ===================================================================== *)
(** ** Python strings *)
(* ===================================================================== *)

Module PyStr.

(** A [str] is a sequence of code points. *)
Abbreviation pystr := (list N).

(** A literal of the source, all of whose characters are ASCII. *)
Definition lit (s : string) : pystr :=
  List.map N_of_ascii (list_ascii_of_string s).

(** [str(n)] for an [int]. *)
Definition str_of_int (z : Z) : pystr :=
  lit (NilZero.string_of_int (Z.to_int z)).

(** The characters [str.strip()] removes: [Py_UNICODE_ISSPACE]. *)
Definition is_space (c : N) : bool :=
  ((9 <=? c) && (c <=? 13)
   || (28 <=? c) && (c <=? 32)
   || (c =? 133) || (c =? 160) || (c =? 5760)
   || (8192 <=? c) && (c <=? 8202)
   || (c =? 8232) || (c =? 8233) || (c =? 8239) || (c =? 8287)
   || (c =? 12288))%N.

Fixpoint lstrip (s : pystr) : pystr :=
  match s with
  | c :: s' => if is_space c then lstrip s' else s
  | [] => []
  end.

Definition rstrip (s : pystr) : pystr := rev (lstrip (rev s)).

(** [s.strip()] *)
Definition strip (s : pystr) : pystr := rstrip (lstrip s).

(** A code point that no encoding of the console accepts: a surrogate. *)
Definition is_surrogate (c : N) : bool := ((55296 <=? c) && (c <=? 57343))%N.

(** A text with a lone surrogate in it ([json.loads] yields one for an
    escape such as [\ud800]). *)
Definition has_surrogate (s : pystr) : bool := existsb is_surrogate s.

(** [s.startswith(p)] *)
Fixpoint startswith (p s : pystr) : bool :=
  match p, s with
  | [], _ => true
  | _ :: _, [] => false
  | a :: p', b :: s' => (a =? b)%N && startswith p' s'
  end.

(** The first occurrence of [sep] in [s], as the text before it and the
    text after it ([s.partition(sep)] without the separator); [None] when
    [sep] does not occur. *)
Fixpoint find_sep (sep s : pystr) {struct s} : option (pystr * pystr) :=
  if startswith sep s then Some ([], drop (length sep) s)
  else match s with
       | [] => None
       | c :: s' =>
           match find_sep sep s' with
           | Some (b, a) => Some (c :: b, a)
           | None => None
           end
       end.

(** [sub in s] *)
Definition contains (sub s : pystr) : bool :=
  match find_sep sub s with Some _ => true | None => false end.

(** The text of [s] before the first occurrence of [sep], or [s] itself. *)
Definition before_first (sep s : pystr) : pystr :=
  match find_sep sep s with Some (b, _) => b | None => s end.

(** Remembers the equation of a scrutinee. *)
Definition inspect {A} (a : A) : {b : A | a = b} := exist _ a eq_refl.

(** [s.split(sep)] for a non-empty separator: cut at the occurrences of
    [sep] found from left to right, each search starting after the
    previous occurrence.  The empty separator, for which Python raises
    [ValueError], is refused before this function is reached
    ([PyOps.py_split]). *)
Equations? split (sep s : pystr) : list pystr by wf (length s) lt :=
  split [] s := [s];
  split (x :: sep) s with inspect (find_sep (x :: sep) s) => {
    | exist _ None _ := [s];
    | exist _ (Some (b, a)) E := b :: split (x :: sep) a }.
Proof.
  clear split. revert b a E. induction s as [|c s IH]; intros b a E.
  - discriminate E.
  - cbn [find_sep] in E. destruct (startswith (x :: sep) (c :: s)).
    + inversion E; subst. simpl. rewrite length_drop. lia.
    + destruct (find_sep (x :: sep) s) as [[b' a']|]; [|discriminate].
      inversion E; subst. specialize (IH _ _ eq_refl). simpl. lia.
Qed.

End PyStr.
Import PyStr.

(* ===================================================================== *)
(** ** Python values, exceptions and the dynamically typed operations *)
(* ===================================================================== *)

(** What [json.loads] can produce.  A [float] is kept as its 64 bits: the
    program never computes with one. *)
Inductive pyval : Type :=
  | PyNone
  | PyBool (b : bool)
  | PyInt (z : Z)
  | PyFloat (bits : Z)
  | PyStr (s : pystr)
  | PyList (l : list pyval)
  | PyDict (d : gmap pystr pyval).

(** The exceptions the interpreter raises for the operations below. *)
Inductive builtin_error : Type :=
  | KeyError (key : pyval)
  | IndexError
  | TypeError
  | AttributeError (attr : string)
  | ValueError
  | UnicodeEncodeError.

(** The place of an exception raised by a library, by the host or by the
    generated script in the class hierarchy, as far as the [except]
    clauses of the program tell classes apart. *)
Record exn_class : Type := ExnClass {
  is_Exception : bool;          (* a subclass of [Exception] *)
  is_RequestException : bool;   (* of [requests.exceptions.RequestException] *)
  is_JSONDecodeError : bool     (* of [json.JSONDecodeError] *)
}.

(** An exception: one of the interpreter's own, or an instance of a
    class [c] whose [__str__] returns [msg], or an instance of a class [c]
    whose [__str__] raises in its turn; a script that is executed can
    define such a class and raise it.  [__str__] is taken to answer the
    same at each call. *)
Inductive pyexn : Type :=
  | Builtin (e : builtin_error)
  | Thrown (c : exn_class) (msg : pystr)
  | Unprintable (c : exn_class) (raised_by_str : pyexn).

Definition class_of (e : pyexn) : exn_class :=
  match e with
  | Builtin _ => ExnClass true false false
  | Thrown c _ => c
  | Unprintable c _ => c
  end.

(** The outcome of evaluating an expression: a value or a raised
    exception. *)
Inductive res (A : Type) : Type :=
  | Ret (a : A)
  | Raise (e : pyexn).
Arguments Ret {A} a.
Arguments Raise {A} e.

(** Sequencing, for the three layers of the model: expressions that may
    raise ([res]), provider code that also reports and posts ([W]) and
    operator code that also changes the scene ([M]). *)
Class Seq (m : Type -> Type) : Type := {
  ret : forall {A}, A -> m A;
  bind : forall {A B}, m A -> (A -> m B) -> m B
}.

Declare Scope py_scope.
Delimit Scope py_scope with py.
Notation "x <- c1 ;; c2" := (bind c1 (fun x => c2))
  (at level 100, c1 at next level, right associativity) : py_scope.
Notation "c1 ;; c2" := (bind c1 (fun _ => c2))
  (at level 100, right associativity) : py_scope.
Local Open Scope py_scope.

#[global] Instance res_Seq : Seq res := {|
  ret := fun A a => Ret a;
  bind := fun A B r k =>
    match r with
    | Ret a => k a
    | Raise e => Raise e
    end
|}.

Module PyOps.

(** [bool(v)] *)
Definition truthy (v : pyval) : bool :=
  match v with
  | PyNone => false
  | PyBool b => b
  | PyInt z => negb (z =? 0)%Z
  | PyFloat bits => negb (bits mod 2 ^ 63 =? 0)%Z
  | PyStr s => negb (bool_decide (s = []))
  | PyList l => match l with [] => false | _ => true end
  | PyDict d => negb (bool_decide (d = ∅))
  end.

(** [v == s] for a [str] literal [s]. *)
Definition eq_str (v : pyval) (s : pystr) : bool :=
  match v with
  | PyStr s' => bool_decide (s' = s)
  | _ => false
  end.

(** [k in v] for a [str] [k]. *)
Definition py_in (k : pystr) (v : pyval) : res bool :=
  match v with
  | PyDict d => Ret (bool_decide (is_Some (d !! k)))
  | PyList l => Ret (existsb (fun x => eq_str x k) l)
  | PyStr s => Ret (contains k s)
  | _ => Raise (Builtin TypeError)
  end.

(** [len(v)] *)
Definition py_len (v : pyval) : res nat :=
  match v with
  | PyDict d => Ret (size d)
  | PyList l => Ret (length l)
  | PyStr s => Ret (length s)
  | _ => Raise (Builtin TypeError)
  end.

(** [v[k]] for a [str] [k]. *)
Definition py_getitem (v : pyval) (k : pystr) : res pyval :=
  match v with
  | PyDict d =>
      match d !! k with
      | Some x => Ret x
      | None => Raise (Builtin (KeyError (PyStr k)))
      end
  | _ => Raise (Builtin TypeError)
  end.

(** [v[i]] for a non-negative [int] [i].  The keys of a parsed JSON
    object are strings, so an integer is never a key. *)
Definition py_index (v : pyval) (i : nat) : res pyval :=
  match v with
  | PyList l =>
      match l !! i with
      | Some x => Ret x
      | None => Raise (Builtin IndexError)
      end
  | PyStr s =>
      match s !! i with
      | Some c => Ret (PyStr [c])
      | None => Raise (Builtin IndexError)
      end
  | PyDict _ => Raise (Builtin (KeyError (PyInt (Z.of_nat i))))
  | _ => Raise (Builtin TypeError)
  end.

(** [v[:n]], whose value is only printed.  A [dict] refuses a slice as a
    key ([TypeError: unhashable type], up to Python 3.11). *)
Definition py_prefix (v : pyval) (n : nat) : res pyval :=
  match v with
  | PyList l => Ret (PyList (take n l))
  | PyStr s => Ret (PyStr (take n s))
  | _ => Raise (Builtin TypeError)
  end.

(** [v.keys()], whose value is only printed. *)
Definition py_keys (v : pyval) : res unit :=
  match v with
  | PyDict _ => Ret tt
  | _ => Raise (Builtin (AttributeError "keys"))
  end.

(** [v.get(k, default)] *)
Definition py_get (v : pyval) (k : pystr) (default : pyval) : res pyval :=
  match v with
  | PyDict d => Ret (match d !! k with Some x => x | None => default end)
  | _ => Raise (Builtin (AttributeError "get"))
  end.

(** [v.startswith(p)] *)
Definition py_startswith (v : pyval) (p : pystr) : res bool :=
  match v with
  | PyStr s => Ret (startswith p s)
  | _ => Raise (Builtin (AttributeError "startswith"))
  end.

(** [v.split(sep)] *)
Definition py_split (v : pyval) (sep : pystr) : res pyval :=
  match v with
  | PyStr s =>
      match sep with
      | [] => Raise (Builtin ValueError)
      | _ => Ret (PyList (PyStr <$> split sep s))
      end
  | _ => Raise (Builtin (AttributeError "split"))
  end.

(** [print(s)] for a text: the console encoder refuses a lone surrogate
    with [UnicodeEncodeError].  What is printed is not kept. *)
Definition py_print (s : pystr) : res unit :=
  if has_surrogate s then Raise (Builtin UnicodeEncodeError) else Ret tt.

(** [print(f"...{v}...")] around literal text: a string is printed as it
    is; any other value goes through [repr], which escapes what the
    console could not encode. *)
Definition print_value (v : pyval) : res unit :=
  match v with
  | PyStr s => py_print s
  | _ => Ret tt
  end.

(** [v.strip()] *)
Definition py_strip (v : pyval) : res pyval :=
  match v with
  | PyStr s => Ret (PyStr (strip s))
  | _ => Raise (Builtin (AttributeError "strip"))
  end.

End PyOps.
Import PyOps.

(* ===================================================================== *)
(** ** Effects: user-facing reports and HTTP requests *)
(* ===================================================================== *)

Inductive level : Type := INFO | WARNING | ERROR.

(** The arguments of [requests.post(url, json=, headers=, timeout=)]. *)
Record http_request : Type := HttpRequest {
  url : pystr;
  json_body : pyval;
  headers : gmap pystr pystr;
  timeout : Z
}.

(** What the program reads of a [requests.Response]: [.status_code],
    [.text] and the outcome of [.json()]. *)
Record response : Type := Response {
  status_code : Z;
  text : pystr;
  json : res pyval
}.

(** What a run of the operator does that can be observed from outside:
    [self.report] and [requests.post], in program order. *)
Inductive event : Type :=
  | Report (l : level) (msg : pystr)
  | HttpPost (req : http_request).

(** Provider code: it may raise, and it leaves a trace of events. *)
Definition W (A : Type) : Type := res A * list event.

#[global] Instance W_Seq : Seq W := {|
  ret := fun A a => (Ret a, []);
  bind := fun A B m k =>
    match m with
    | (Ret a, evs) => let '(r, evs') := k a in (r, evs ++ evs')
    | (Raise e, evs) => (Raise e, evs)
    end
|}.

(** An expression without effects other than raising. *)
Definition eval {A} (r : res A) : W A := (r, []).

(** [self.report({l}, msg)] *)
Definition report (l : level) (msg : pystr) : W unit :=
  (Ret tt, [Report l msg]).

(** The first [except] clause of a [try] that accepts the exception. *)
Fixpoint handler_of {T} (clauses : list ((pyexn -> bool) * (pyexn -> T)))
    (e : pyexn) : option T :=
  match clauses with
  | [] => None
  | (catches, h) :: rest =>
      if catches e : bool then Some (h e) else handler_of rest e
  end.

(** [try: m  except C1 as e: h1  except C2 as e: h2 ...] *)
Definition try_except {A} (m : W A)
    (clauses : list ((pyexn -> bool) * (pyexn -> W A))) : W A :=
  match m with
  | (Ret a, evs) => (Ret a, evs)
  | (Raise e, evs) =>
      match handler_of clauses e with
      | Some (r, evs') => (r, evs ++ evs')
      | None => (Raise e, evs)
      end
  end.

(** [a and b] on conditions. *)
Definition py_and (a b : W bool) : W bool :=
  x <- a ;; if x then b else ret false.

(** [except Exception] *)
Definition exc_Exception (e : pyexn) : bool := is_Exception (class_of e).
(** [except requests.exceptions.RequestException] *)
Definition exc_RequestException (e : pyexn) : bool :=
  is_RequestException (class_of e).
(** [except json.JSONDecodeError] *)
Definition exc_JSONDecodeError (e : pyexn) : bool :=
  is_JSONDecodeError (class_of e).
(** a bare [except:] *)
Definition exc_any (e : pyexn) : bool := true.

(* ===================================================================== *)
(** ** The settings: [AIGenProperties] *)
(* ===================================================================== *)

Inductive api_provider_t : Type := GEMINI | GROQ | OPENAI | ANTHROPIC | CUSTOM.

Record AIGenProperties : Type := {
  prompt : pystr;
  api_provider : api_provider_t;
  groq_model : pystr;
  openai_model : pystr;
  anthropic_model : pystr;
  api_url : pystr;
  api_key : pystr;
  auto_clear : bool
}.

Definition fence : pystr := lit "```".
Definition fence_python : pystr := lit "```python".

(** The [system_prompt] literal, the same in the four provider calls. *)
Definition system_prompt : pystr := lit
"You are a Blender Python script generator. Generate clean, working Python code that uses the Blender API (bpy) to create 3D models.

Rules:
1. Only return Python code, no explanations or markdown
2. Use bpy.ops and bpy.data modules
3. Create objects at origin (0,0,0) unless specified
4. Use proper error handling
5. Clear any existing selections first
6. Select created objects at the end
7. Keep code clean and commented

Example format:
import bpy
import bmesh

# Clear existing selection
bpy.ops.object.select_all(action='DESELECT')

# Your model creation code here
bpy.ops.mesh.primitive_cube_add(location=(0, 0, 0))
".

Definition user_prompt (props : AIGenProperties) : pystr :=
  lit "Generate a Blender Python script to create: " ++ prompt props.

(** The [float] 0.7, as its IEEE 754 binary64 bits. *)
Definition float_0_7 : pyval := PyFloat 0x3FE6666666666666.

(** A [dict] display [{k1: v1, ...}]. *)
Definition dict (l : list (string * pyval)) : pyval :=
  PyDict (list_to_map (prod_map lit id <$> l)).

(* ===================================================================== *)
(** ** Clean-up of the generated text *)
(* ===================================================================== *)

(** [content.split(marker)[1].split('```')[0]] *)
Definition strip_fence (content : pyval) (marker : pystr) : res pyval :=
  parts <- py_split content marker ;;
  inner <- py_index parts 1 ;;
  parts' <- py_split inner fence ;;
  py_index parts' 0.

(** The removal of the code fence and the [strip] (lines 232-238 for
    Gemini, and the same lines in the Anthropic, OpenAI and Groq calls):
    the part of the clean-up that prints nothing. *)
Definition clean_content (content : pyval) : res pyval :=
  is_python <- py_startswith content fence_python ;;
  content' <-
    (if is_python : bool then strip_fence content fence_python
     else
       is_fence <- py_startswith content fence ;;
       if is_fence : bool then strip_fence content fence
       else ret content) ;;
  py_strip content'.

(** The two debug prints of a text, its length and its first 200
    characters (lines 229-230 for the raw content, 239-240 for the cleaned
    one).  The second print raises when the preview cannot be encoded. *)
Definition log_preview (v : pyval) : res unit :=
  py_len v ;;
  preview <- py_prefix v 200 ;;
  print_value preview.

(** From the clean-up to the [return] (lines 232-242): the cleaned
    content is returned once its preview has been printed. *)
Definition clean_and_return (content : pyval) : res pyval :=
  cleaned_content <- clean_content content ;;
  log_preview cleaned_content ;;
  ret cleaned_content.

(** From the prints of the raw content to the [return] (lines 229-242). *)
Definition extract_script (content : pyval) : res pyval :=
  log_preview content ;;
  clean_and_return content.

(** [try: x = r  except: pass], with [x] bound to [d] before. *)
Definition or_keep {A} (r : res A) (d : A) : A :=
  match r with
  | Ret a => a
  | Raise _ => d
  end.

(* ===================================================================== *)
(** ** The provider adapter *)
(* ===================================================================== *)

Section Adapter.

(** The interpreter and the network are outside the program: [repr] of
    a value other than a string, the text of the exceptions raised by
    the interpreter, and what [requests.post] does with a request
    (a response, or an exception). *)
Variable repr : pyval -> pystr.
Variable builtin_msg : builtin_error -> pystr.
Variable requests_post : http_request -> res response.

(** A value inside an f-string. *)
Definition format (v : pyval) : pystr :=
  match v with
  | PyStr s => s
  | _ => repr v
  end.

(** The text of an exception whose [__str__] returns: those of the
    interpreter, of [requests] and of the host.  It is [str(e)] in the
    handlers of the provider calls, where nothing else arrives. *)
Definition exn_str (e : pyexn) : pystr :=
  match e with
  | Builtin b => builtin_msg b
  | Thrown _ msg => msg
  | Unprintable _ _ => []
  end.

(** [str(e)], which runs the [__str__] of the class of [e] and raises
    what it raises. *)
Definition py_str (e : pyexn) : res pystr :=
  match e with
  | Unprintable _ e' => Raise e'
  | _ => Ret (exn_str e)
  end.

(** [print(f"...{str(e)}")] once [str(e)] has returned.  The texts of
    the interpreter's own exceptions can always be printed: they quote
    values with [repr]. *)
Definition print_exn (e : pyexn) : res unit :=
  match e with
  | Thrown _ msg => py_print msg
  | _ => Ret tt
  end.

(** [requests.post(...)] *)
Definition post (req : http_request) : W response :=
  (requests_post req, [HttpPost req]).

(** The guard every keyed provider starts with. *)
Definition key_missing (props : AIGenProperties) : bool :=
  bool_decide (strip (api_key props) = []).

(** The [else] branch of a call on a status other than 200, for Gemini
    and Groq (lines 251-265 and 597-611). *)
Definition simple_api_error (name : string) (r : response) : W pyval :=
  let error_msg := lit name ++ lit " API Error: " ++ str_of_int (status_code r) in
  let error_msg :=
    if bool_decide (text r = []) then error_msg
    else or_keep
           (error_data <- json r ;;
            has_error <- py_in (lit "error") error_data ;;
            if has_error : bool then
              err <- py_getitem error_data (lit "error") ;;
              m <- py_get err (lit "message") (PyStr []) ;;
              ret (error_msg ++ lit " - " ++ format m)
            else ret error_msg)
           error_msg in
  report ERROR error_msg ;;
  ret PyNone.

(** The same branch for Anthropic and OpenAI (lines 357-382 and
    476-501), which replace the message for two error types. *)
Definition typed_api_error (name : string) (type1 msg1 type2 msg2 : string)
    (r : response) : W pyval :=
  let error_msg := lit name ++ lit " API Error: " ++ str_of_int (status_code r) in
  let error_msg :=
    if bool_decide (text r = []) then error_msg
    else or_keep
           (error_data <- json r ;;
            has_error <- py_in (lit "error") error_data ;;
            if has_error : bool then
              err <- py_getitem error_data (lit "error") ;;
              error_type <- py_get err (lit "type") (PyStr []) ;;
              err' <- py_getitem error_data (lit "error") ;;
              error_message <- py_get err' (lit "message") (PyStr []) ;;
              ret (if eq_str error_type (lit type1) then lit msg1
                   else if eq_str error_type (lit type2) then lit msg2
                   else error_msg ++ lit " - " ++ format error_message)
            else ret error_msg)
           error_msg in
  report ERROR error_msg ;;
  ret PyNone.

(** [k in v and len(v[k]) > 0] *)
Definition has_nonempty (k : string) (v : pyval) : W bool :=
  py_and (eval (py_in (lit k) v))
         (eval (x <- py_getitem v (lit k) ;;
                n <- py_len x ;;
                ret (bool_decide (0 < n)))).

(** [k1 in v and k2 in v[k1]] *)
Definition has_path (k1 k2 : string) (v : pyval) : W bool :=
  py_and (eval (py_in (lit k1) v))
         (eval (x <- py_getitem v (lit k1) ;; py_in (lit k2) x)).

(** The request of the Gemini call: [url], [data], [headers] and the
    timeout (lines 167-213). *)
Definition gemini_request (props : AIGenProperties) : http_request :=
  let url := lit "https://generativelanguage.googleapis.com/v1beta/models/gemini-2.0-flash:generateContent" in
  let data := dict
    [ ("contents", PyList
         [ dict [ ("parts", PyList
             [ dict [ ("text", PyStr (system_prompt ++ [10; 10]%N
                                      ++ user_prompt props)) ] ]) ] ]);
      ("generationConfig", dict
         [ ("temperature", float_0_7); ("maxOutputTokens", PyInt 1000) ]) ] in
  let headers : gmap pystr pystr :=
    {[ lit "Content-Type" := lit "application/json";
       lit "X-goog-api-key" := api_key props ]} in
  HttpRequest url data headers 30.

Definition call_gemini_api (props : AIGenProperties) : W pyval :=
  if key_missing props then
    report ERROR (lit "Please enter your Gemini API key") ;;
    ret PyNone
  else
    response <- post (gemini_request props) ;;
    if bool_decide (status_code response = 200%Z) then
      result <- eval (json response) ;;
      eval (py_keys result) ;;
      ok <- has_nonempty "candidates" result ;;
      if ok : bool then
        candidate <- eval (l <- py_getitem result (lit "candidates") ;;
                           py_index l 0) ;;
        eval (py_keys candidate) ;;
        ok' <- has_path "content" "parts" candidate ;;
        if ok' : bool then
          content <- eval (c <- py_getitem candidate (lit "content") ;;
                           ps <- py_getitem c (lit "parts") ;;
                           p0 <- py_index ps 0 ;;
                           py_getitem p0 (lit "text")) ;;
          eval (extract_script content)
        else
          report ERROR (lit "Invalid response structure from Gemini") ;;
          ret PyNone
      else
        report ERROR (lit "No content generated by Gemini") ;;
        ret PyNone
    else simple_api_error "Gemini" response.

(** The request of the Anthropic call (lines 273-319). *)
Definition anthropic_request (props : AIGenProperties) : http_request :=
  let url := lit "https://api.anthropic.com/v1/messages" in
  let data := dict
    [ ("model", PyStr (anthropic_model props));
      ("max_tokens", PyInt 1000);
      ("temperature", float_0_7);
      ("system", PyStr system_prompt);
      ("messages", PyList
         [ dict [ ("role", PyStr (lit "user"));
                  ("content", PyStr (user_prompt props)) ] ]) ] in
  let headers : gmap pystr pystr :=
    {[ lit "Content-Type" := lit "application/json";
       lit "x-api-key" := api_key props;
       lit "anthropic-version" := lit "2023-06-01" ]} in
  HttpRequest url data headers 30.

Definition call_anthropic_api (props : AIGenProperties) : W pyval :=
  if key_missing props then
    report ERROR (lit "Please enter your Anthropic API key") ;;
    ret PyNone
  else
    response <- post (anthropic_request props) ;;
    if bool_decide (status_code response = 200%Z) then
      result <- eval (json response) ;;
      eval (py_keys result) ;;
      ok <- has_nonempty "content" result ;;
      if ok : bool then
        content_block <- eval (l <- py_getitem result (lit "content") ;;
                               py_index l 0) ;;
        eval (py_keys content_block) ;;
        ok' <- eval (py_in (lit "text") content_block) ;;
        if ok' : bool then
          content <- eval (py_getitem content_block (lit "text")) ;;
          eval (extract_script content)
        else
          report ERROR (lit "Invalid response structure from Anthropic") ;;
          ret PyNone
      else
        report ERROR (lit "No content generated by Anthropic") ;;
        ret PyNone
    else
      typed_api_error "Anthropic"
        "authentication_error"
        "Invalid Anthropic API key. Check your key at console.anthropic.com"
        "permission_error"
        "Anthropic API permission denied. Check your account access"
        response.

(** The 200 branch of the OpenAI and Groq calls (lines 443-475 and
    564-596), which differ in the provider's name only. *)
Definition chat_completion_text (name : string) (r : response) : W pyval :=
  result <- eval (json r) ;;
  eval (py_keys result) ;;
  ok <- has_nonempty "choices" result ;;
  if ok : bool then
    choice <- eval (l <- py_getitem result (lit "choices") ;;
                    py_index l 0) ;;
    eval (py_keys choice) ;;
    ok' <- has_path "message" "content" choice ;;
    if ok' : bool then
      content <- eval (m <- py_getitem choice (lit "message") ;;
                       py_getitem m (lit "content")) ;;
      eval (extract_script content)
    else
      report ERROR (lit "Invalid response structure from " ++ lit name) ;;
      ret PyNone
  else
    report ERROR (lit "No content generated by " ++ lit name) ;;
    ret PyNone.

(** The two messages of a chat request. *)
Definition chat_messages (props : AIGenProperties) : pyval :=
  PyList [ dict [ ("role", PyStr (lit "system"));
                  ("content", PyStr system_prompt) ];
           dict [ ("role", PyStr (lit "user"));
                  ("content", PyStr (user_prompt props)) ] ].

Definition bearer_headers (props : AIGenProperties) : gmap pystr pystr :=
  {[ lit "Content-Type" := lit "application/json";
     lit "Authorization" := lit "Bearer " ++ api_key props ]}.

(** The request of the OpenAI call (lines 390-438). *)
Definition openai_request (props : AIGenProperties) : http_request :=
  let url := lit "https://api.openai.com/v1/chat/completions" in
  let data := dict
    [ ("model", PyStr (openai_model props));
      ("messages", chat_messages props);
      ("temperature", float_0_7);
      ("max_tokens", PyInt 1000) ] in
  HttpRequest url data (bearer_headers props) 30.

Definition call_openai_api (props : AIGenProperties) : W pyval :=
  if key_missing props then
    report ERROR (lit "Please enter your OpenAI API key") ;;
    ret PyNone
  else
    response <- post (openai_request props) ;;
    if bool_decide (status_code response = 200%Z) then
      chat_completion_text "OpenAI" response
    else
      typed_api_error "OpenAI"
        "insufficient_quota"
        "OpenAI quota exceeded. Please add credits at platform.openai.com/billing"
        "invalid_api_key"
        "Invalid OpenAI API key. Check your key at platform.openai.com/api-keys"
        response.

(** The request of the Groq call (lines 509-559). *)
Definition groq_request (props : AIGenProperties) : http_request :=
  let url := lit "https://api.groq.com/openai/v1/chat/completions" in
  let data := dict
    [ ("model", PyStr (groq_model props));
      ("messages", chat_messages props);
      ("temperature", float_0_7);
      ("max_tokens", PyInt 1000);
      ("top_p", PyInt 1);
      ("stream", PyBool false) ] in
  HttpRequest url data (bearer_headers props) 30.

Definition call_groq_api (props : AIGenProperties) : W pyval :=
  if key_missing props then
    report ERROR (lit "Please enter your Groq API key") ;;
    ret PyNone
  else
    response <- post (groq_request props) ;;
    if bool_decide (status_code response = 200%Z) then
      chat_completion_text "Groq" response
    else simple_api_error "Groq" response.

(** The request of the custom call (lines 617-636); the key is sent
    only when there is one. *)
Definition custom_request (props : AIGenProperties) : http_request :=
  let data := dict [ ("prompt", PyStr (prompt props));
                     ("format", PyStr (lit "blender_python")) ] in
  let headers : gmap pystr pystr :=
    {[ lit "Content-Type" := lit "application/json" ]} in
  let headers :=
    if key_missing props then headers
    else <[ lit "Authorization" := lit "Bearer " ++ api_key props ]> headers in
  HttpRequest (api_url props) data headers 30.

Definition call_custom_api (props : AIGenProperties) : W pyval :=
  try_except
    (response <- post (custom_request props) ;;
     if bool_decide (status_code response = 200%Z) then
       result <- eval (json response) ;;
       eval (py_get result (lit "script") (PyStr []))
     else
       report ERROR (lit "API Error: " ++ str_of_int (status_code response)) ;;
       ret PyNone)
    [ (exc_RequestException,
       fun e => report ERROR (lit "Network Error: " ++ exn_str e) ;;
                ret PyNone);
      (exc_JSONDecodeError,
       fun _ => report ERROR (lit "Invalid JSON response from API") ;;
                ret PyNone) ].

(** The request a call to the selected provider sends. *)
Definition provider_request (props : AIGenProperties) : http_request :=
  match api_provider props with
  | GEMINI => gemini_request props
  | GROQ => groq_request props
  | OPENAI => openai_request props
  | ANTHROPIC => anthropic_request props
  | CUSTOM => custom_request props
  end.

(** Call the AI API and return the generated script. *)
Definition call_api (props : AIGenProperties) : W pyval :=
  try_except
    (match api_provider props with
     | GEMINI => call_gemini_api props
     | GROQ => call_groq_api props
     | OPENAI => call_openai_api props
     | ANTHROPIC => call_anthropic_api props
     | CUSTOM => call_custom_api props
     end)
    [ (exc_Exception,
       fun e => report ERROR (lit "API Error: " ++ exn_str e) ;;
                ret PyNone) ].

End Adapter.

(* ===================================================================== *)
(** ** The host application and the executor *)
(* ===================================================================== *)

(** What the operator uses of Blender.  Each operation acts on the scene
    and may raise (an operator whose [poll] fails raises [RuntimeError]).
    [py_exec code collection] is [exec(code, exec_globals)]: the scene it
    returns is the scene as the script left it, at its end or at the
    point where it raised.  [exec] encodes the source before it compiles
    it, so a text with a lone surrogate is refused before anything runs
    ([py_exec_encodes]). *)
Class Host : Type := {
  scene : Type;
  collection : Type;
  ops_object_select_all : scene -> res unit * scene;
  ops_object_delete : scene -> res unit * scene;
  data_collections_new : pystr -> scene -> res collection * scene;
  collection_children_link : collection -> scene -> res unit * scene;
  py_exec : pystr -> collection -> scene -> res unit * scene;
  view_layer_update : scene -> res unit * scene;
  py_exec_encodes : forall code c s,
    has_surrogate code = true ->
    py_exec code c s = (Raise (Builtin UnicodeEncodeError), s)
}.

Inductive op_result : Type := FINISHED | CANCELLED.

Section Operator.

Context {H : Host}.
Variable repr : pyval -> pystr.
Variable builtin_msg : builtin_error -> pystr.
Variable requests_post : http_request -> res response.

(** Operator code: it may raise, leaves a trace of events and changes
    the scene.  The scene changes made before an exception stay. *)
Definition M (A : Type) : Type := scene -> res A * list event * scene.

#[global] Instance M_Seq : Seq M := {|
  ret := fun A a s => (Ret a, [], s);
  bind := fun A B m k s =>
    match m s with
    | (Ret a, evs, s') => let '(r, evs', s'') := k a s' in (r, evs ++ evs', s'')
    | (Raise e, evs, s') => (Raise e, evs, s')
    end
|}.

(** Provider code inside the operator: the scene is not touched. *)
Definition liftW {A} (m : W A) : M A := fun s => (fst m, snd m, s).

(** A host operation inside the operator. *)
Definition host {A} (op : scene -> res A * scene) : M A :=
  fun s => let '(r, s') := op s in (r, [], s').

Definition try_exceptM {A} (m : M A)
    (clauses : list ((pyexn -> bool) * (pyexn -> M A))) : M A :=
  fun s =>
    match m s with
    | (Ret a, evs, s') => (Ret a, evs, s')
    | (Raise e, evs, s') =>
        match handler_of clauses e with
        | Some h => let '(r, evs', s'') := h s' in (r, evs ++ evs', s'')
        | None => (Raise e, evs, s')
        end
    end.

(** [exec(script_code, exec_globals)] *)
Definition exec (script_code : pyval) (c : collection) : M unit :=
  match script_code with
  | PyStr code => host (py_exec code c)
  | _ => liftW (eval (Raise (Builtin TypeError)))
  end.

(** Clear all mesh objects from the scene. *)
Definition clear_scene : M unit :=
  host ops_object_select_all ;;
  host ops_object_delete.

(** Safely execute the generated Blender script. *)
Definition execute_script (script_code : pyval) (props : AIGenProperties)
    : M unit :=
  try_exceptM
    (liftW (eval (py_len script_code)) ;;
     (if auto_clear props then clear_scene else ret tt) ;;
     let collection_name := lit "AI_Generated_" ++ take 20 (prompt props) in
     collection <- host (data_collections_new collection_name) ;;
     host (collection_children_link collection) ;;
     exec script_code collection ;;
     host view_layer_update)
    [ (exc_Exception,
       fun e =>
         msg <- liftW (eval (py_str builtin_msg e)) ;;
         liftW (report ERROR (lit "Script execution error: " ++ msg)) ;;
         liftW (eval (print_exn e))) ].

(** [script_code and script_code.strip()] as a condition. *)
Definition script_present (script_code : pyval) : res bool :=
  if truthy script_code then
    stripped <- py_strip script_code ;;
    ret (truthy stripped)
  else ret false.

(** [AIGEN_OT_generate.execute] *)
Definition execute (props : AIGenProperties) : M op_result :=
  if bool_decide (strip (prompt props) = []) then
    liftW (report ERROR (lit "Please enter a prompt")) ;;
    ret CANCELLED
  else
    liftW (report INFO (lit "Generating model for: " ++ prompt props)) ;;
    try_exceptM
      (script_code <- liftW (call_api repr builtin_msg requests_post props) ;;
       present <- liftW (eval (script_present script_code)) ;;
       if present : bool then
         liftW (eval (print_value script_code)) ;;
         execute_script script_code props ;;
         liftW (report INFO (lit "Model generated successfully!")) ;;
         ret FINISHED
       else
         liftW (report ERROR (lit "Failed to get valid script from API")) ;;
         ret CANCELLED)
      [ (exc_Exception,
         fun e =>
           msg <- liftW (eval (py_str builtin_msg e)) ;;
           liftW (report ERROR (lit "Error: " ++ msg)) ;;
           liftW (eval (print_exn e)) ;;
           ret CANCELLED) ].

End Operator.

(* ===================================================================== *)
(** ** The clean-up as the specification words it *)
(* ===================================================================== *)

(** The fence marker a text opens with: [```python] when the text starts
    with it, [```] otherwise. *)
Definition opening_marker (text : pystr) : pystr :=
  if startswith fence_python text then fence_python else fence.



(** What the two [split]s of the source keep of a text. *)
Definition fenced_inner (text : pystr) : pystr :=
  if startswith fence_python text then
    before_first fence
      (before_first fence_python (drop (length fence_python) text))
  else if startswith fence text then
    before_first fence (drop (length fence) text)
  else text.


(** An exception whose text can be reported and printed: [str(e)]
    returns, and the console can encode what it returns. *)
Definition printable (e : pyexn) : bool :=
  match e with
  | Builtin _ => true
  | Thrown _ msg => negb (has_surrogate msg)
  | Unprintable _ _ => false
  end.


(* ===================================================================== *)
(** ** Vocabulary of the properties *)
(* ===================================================================== *)

(** The name a provider has in the messages of its call. *)
Definition provider_name (p : api_provider_t) : string :=
  match p with
  | GEMINI => "Gemini"
  | GROQ => "Groq"
  | OPENAI => "OpenAI"
  | ANTHROPIC => "Anthropic"
  | CUSTOM => "Custom"
  end.

(** The providers whose call starts with the key guard. *)
Definition requires_credential (p : api_provider_t) : bool :=
  match p with
  | CUSTOM => false
  | _ => true
  end.




(** The body of the example response of the specification. *)
Definition gemini_fenced_body : pyval :=
  dict [ ("candidates", PyList
    [ dict [ ("content", dict [ ("parts", PyList
        [ dict [ ("text", PyStr (lit "```python" ++ [10%N] ++ lit "X"
                                 ++ [10%N] ++ lit "```")) ] ]) ]) ] ]) ].

(** The scene before the script runs: cleared when asked for, and with
    the new collection linked. *)
Definition setup_succeeds {H : Host} (props : AIGenProperties)
    (s s3 : scene) (c : collection) : Prop :=
  exists s1 s2,
    (if auto_clear props then clear_scene else ret tt) s = (Ret tt, [], s1)
    /\ data_collections_new (lit "AI_Generated_" ++ take 20 (prompt props)) s1
       = (Ret c, s2)
    /\ collection_children_link c s2 = (Ret tt, s3).

(* ===================================================================== *)
(** ** Fixtures: a small host, fixed servers and settings *)
(* ===================================================================== *)

Module Fixtures.

(** A host with a list of objects and a list of collections.  A script is
    read one character at a time: [c] adds an object, [!] raises a
    [RuntimeError], [q] leaves the interpreter ([sys.exit()]), [u] raises
    an exception whose [__str__] raises, anything else does nothing.  A
    source with a lone surrogate is refused whole, as [exec] does. *)
Record test_scene : Type := TestScene {
  objects : list pystr;
  collections : list pystr
}.

Definition RuntimeError (msg : string) : pyexn :=
  Thrown (ExnClass true false false) (lit msg).

(** [SystemExit] is no subclass of [Exception]. *)
Definition SystemExit : pyexn := Thrown (ExnClass false false false) [].

(** An instance of [class E(Exception)] whose [__str__] raises a
    [RuntimeError]. *)
Definition Unspeakable : pyexn :=
  Unprintable (ExnClass true false false) (RuntimeError "no text").

Fixpoint run_script (code : pystr) (s : test_scene) : res unit * test_scene :=
  match code with
  | [] => (Ret tt, s)
  | ch :: rest =>
      if (ch =? 99)%N then
        run_script rest (TestScene (lit "Cube" :: objects s) (collections s))
      else if (ch =? 33)%N then (Raise (RuntimeError "boom"), s)
      else if (ch =? 113)%N then (Raise SystemExit, s)
      else if (ch =? 117)%N then (Raise Unspeakable, s)
      else run_script rest s
  end.

Definition exec_script (code : pystr) (s : test_scene) : res unit * test_scene :=
  if has_surrogate code then (Raise (Builtin UnicodeEncodeError), s)
  else run_script code s.

Definition test_host : Host := {|
  scene := test_scene;
  collection := pystr;
  ops_object_select_all := fun s => (Ret tt, s);
  ops_object_delete := fun s => (Ret tt, TestScene [] (collections s));
  data_collections_new := fun name s =>
    (Ret name, TestScene (objects s) (name :: collections s));
  collection_children_link := fun _ s => (Ret tt, s);
  py_exec := fun code _ s => exec_script code s;
  view_layer_update := fun s => (Ret tt, s);
  py_exec_encodes := ltac:(by intros code c s Hs; cbv beta; unfold exec_script; rewrite Hs)
|}.

(** A scene with one object in it. *)
Definition old_scene : test_scene := TestScene [lit "Lamp"] [].

(** A server that answers every request with [r]. *)
Definition answers (r : response) : http_request -> res response :=
  fun _ => Ret r.

Definition no_repr : pyval -> pystr := fun _ => [].
Definition no_msg : builtin_error -> pystr := fun _ => [].

Definition settings (p : api_provider_t) (key : string) : AIGenProperties := {|
  prompt := lit "Create a simple cube";
  api_provider := p;
  groq_model := lit "llama-3.3-70b-versatile";
  openai_model := lit "gpt-4.1-mini";
  anthropic_model := lit "claude-sonnet-4-20250514";
  api_url := lit "http://localhost:8000/generate";
  api_key := lit key;
  auto_clear := true
|}.

(** The custom endpoint, used without a key. *)
Definition custom_settings : AIGenProperties := settings CUSTOM EmptyString.

(** A 200 response whose body is the empty JSON object. *)
Definition empty_object : response :=
  Response 200 (lit "{}") (Ret (PyDict ∅)).





Definition server_error : response :=
  Response 500 (lit "oops") (Raise (Thrown (ExnClass true true true) (lit "bad json"))).

End Fixtures.

(* ===================================================================== *)
(** ** The connection test: [AIGEN_OT_test_connection] *)
(* ===================================================================== *)

(** What a run of the connection test does: the events of the generate
    operator, and [requests.get(url, timeout=)] for the custom endpoint. *)
Inductive conn_event : Type :=
  | Ev (e : event)
  | HttpGet (get_url : pystr) (get_timeout : Z).

(** Code of the connection test: it may raise, and it leaves a trace. *)
Definition T (A : Type) : Type := res A * list conn_event.

#[global] Instance T_Seq : Seq T := {|
  ret := fun A a => (Ret a, []);
  bind := fun A B m k =>
    match m with
    | (Ret a, evs) => let '(r, evs') := k a in (r, evs ++ evs')
    | (Raise e, evs) => (Raise e, evs)
    end
|}.

(** [self.report({l}, msg)] in the connection test. *)
Definition reportT (l : level) (msg : pystr) : T unit :=
  (Ret tt, [Ev (Report l msg)]).

(** [try: m  except C as e: h] in the connection test. *)
Definition try_exceptT {A} (m : T A)
    (clauses : list ((pyexn -> bool) * (pyexn -> T A))) : T A :=
  match m with
  | (Ret a, evs) => (Ret a, evs)
  | (Raise e, evs) =>
      match handler_of clauses e with
      | Some (r, evs') => (r, evs ++ evs')
      | None => (Raise e, evs)
      end
  end.

(** The message of a test request: [{"role": "user", "content": "Say hello"}]. *)
Definition hello_messages : pyval :=
  PyList [ dict [ ("role", PyStr (lit "user"));
                  ("content", PyStr (lit "Say hello")) ] ].

(** The requests of the connection test (lines 711-719, 732-742, 755-765
    and 778-789). *)
Definition gemini_test_request (props : AIGenProperties) : http_request :=
  let url := lit "https://generativelanguage.googleapis.com/v1beta/models/gemini-2.0-flash:generateContent" in
  let data := dict
    [ ("contents", PyList
         [ dict [ ("parts", PyList
             [ dict [ ("text", PyStr (lit "Say hello")) ] ]) ] ]) ] in
  let headers : gmap pystr pystr :=
    {[ lit "Content-Type" := lit "application/json";
       lit "X-goog-api-key" := api_key props ]} in
  HttpRequest url data headers 10.

Definition groq_test_request (props : AIGenProperties) : http_request :=
  let url := lit "https://api.groq.com/openai/v1/chat/completions" in
  let data := dict
    [ ("model", PyStr (groq_model props));
      ("messages", hello_messages);
      ("max_tokens", PyInt 10) ] in
  HttpRequest url data (bearer_headers props) 10.

Definition openai_test_request (props : AIGenProperties) : http_request :=
  let url := lit "https://api.openai.com/v1/chat/completions" in
  let data := dict
    [ ("model", PyStr (openai_model props));
      ("messages", hello_messages);
      ("max_tokens", PyInt 10) ] in
  HttpRequest url data (bearer_headers props) 10.

Definition anthropic_test_request (props : AIGenProperties) : http_request :=
  let url := lit "https://api.anthropic.com/v1/messages" in
  let data := dict
    [ ("model", PyStr (anthropic_model props));
      ("max_tokens", PyInt 10);
      ("messages", hello_messages) ] in
  let headers : gmap pystr pystr :=
    {[ lit "Content-Type" := lit "application/json";
       lit "x-api-key" := api_key props;
       lit "anthropic-version" := lit "2023-06-01" ]} in
  HttpRequest url data headers 10.

Section Connection.

Variable builtin_msg : builtin_error -> pystr.
Variable requests_post : http_request -> res response.
Variable requests_get : pystr -> Z -> res response.

(** [requests.post(...)] in the connection test. *)
Definition postT (req : http_request) : T response :=
  (requests_post req, [Ev (HttpPost req)]).

(** [requests.get(url, timeout=t)] *)
Definition getT (u : pystr) (t : Z) : T response :=
  (requests_get u t, [HttpGet u t]).

(** One keyed branch of the test (lines 705-724 for Gemini, and the same
    lines for Groq, OpenAI and Anthropic): the key guard, which returns
    CANCELLED from inside the [try], then the request and the report on
    its status.  [Some r] is a [return r] inside the [try]; [None] falls
    through to the end of the method. *)
Definition test_keyed (name : string) (req : http_request)
    (props : AIGenProperties) : T (option op_result) :=
  if key_missing props then
    reportT ERROR (lit "Please enter your " ++ lit name ++ lit " API key") ;;
    ret (Some CANCELLED)
  else
    response <- postT req ;;
    (if bool_decide (status_code response = 200%Z) then
       reportT INFO (lit name ++ lit " API connection successful!")
     else
       reportT ERROR (lit name ++ lit " API error: "
                      ++ str_of_int (status_code response))) ;;
    ret None.

(** [AIGEN_OT_test_connection.execute] *)
Definition test_connection (props : AIGenProperties) : T op_result :=
  returned <-
    try_exceptT
      (match api_provider props with
       | GEMINI => test_keyed "Gemini" (gemini_test_request props) props
       | GROQ => test_keyed "Groq" (groq_test_request props) props
       | OPENAI => test_keyed "OpenAI" (openai_test_request props) props
       | ANTHROPIC =>
           test_keyed "Anthropic" (anthropic_test_request props) props
       | CUSTOM =>
           response <- getT (api_url props) 5 ;;
           (if bool_decide (status_code response = 200%Z) then
              reportT INFO (lit "Custom API connection successful!")
            else
              reportT WARNING (lit "Custom API returned status: "
                               ++ str_of_int (status_code response))) ;;
           ret None
       end)
      [ (exc_Exception,
         fun e => reportT ERROR (lit "Connection failed: "
                                 ++ exn_str builtin_msg e) ;;
                  ret None) ] ;;
  match returned with
  | Some r => ret r
  | None => ret FINISHED
  end.

End Connection.

(** The request the connection test posts for a keyed provider; the
    custom endpoint is tested with a GET. *)
Definition test_request (props : AIGenProperties) : option http_request :=
  match api_provider props with
  | GEMINI => Some (gemini_test_request props)
  | GROQ => Some (groq_test_request props)
  | OPENAI => Some (openai_test_request props)
  | ANTHROPIC => Some (anthropic_test_request props)
  | CUSTOM => None
  end.

(* ===================================================================== *)
(** ** The panel: [AIGEN_PT_main_panel.draw] *)
(* ===================================================================== *)

(** What [draw] puts in a layout, in the order of the calls: labels,
    fields bound to a setting by its name, operator buttons, and the
    sub-layouts [box()], [row()] and [column()] with their [scale_y]. *)
Inductive ui : Type :=
  | Label (text icon : string)
  | PropField (name : string) (text : option string)
  | OperatorButton (idname text icon : string)
  | Box (items : list ui)
  | Row (scale_y : Q) (items : list ui)
  | Column (scale_y : Q) (items : list ui).

(** The fields and the hint drawn for the selected provider (lines
    853-870). *)
Definition provider_fields (p : api_provider_t) : list ui :=
  match p with
  | GEMINI =>
      [ PropField "api_key" (Some "Gemini API Key");
        Label "Get your key at: ai.google.dev" "INFO" ]
  | GROQ =>
      [ PropField "groq_model" (Some "Model");
        PropField "api_key" (Some "Groq API Key");
        Label "Get your key at: console.groq.com" "INFO" ]
  | OPENAI =>
      [ PropField "openai_model" (Some "Model");
        PropField "api_key" (Some "OpenAI API Key");
        Label "Get your key at: platform.openai.com" "INFO" ]
  | ANTHROPIC =>
      [ PropField "anthropic_model" (Some "Model");
        PropField "api_key" (Some "Anthropic API Key");
        Label "Get your key at: console.anthropic.com" "INFO" ]
  | CUSTOM =>
      [ PropField "api_url" (Some "API URL");
        PropField "api_key" (Some "API Key (optional)") ]
  end.

(** [AIGEN_PT_main_panel.draw]: the content of [self.layout]. *)
Definition draw (props : AIGenProperties) : list ui :=
  [ Box [ Label "Generation Settings:" "SETTINGS";
          Column 2 [ PropField "prompt" (Some EmptyString) ];
          PropField "auto_clear" None ];
    Row (3 # 2) [ OperatorButton "aigen.generate" "Generate Model" "MESH_CUBE" ];
    Box ([ Label "API Settings:" "WORLD";
           PropField "api_provider" (Some "Provider") ]
         ++ provider_fields (api_provider props)
         ++ [ Row 1 [ OperatorButton "aigen.test_connection" "Test" "PLUGIN";
                      OperatorButton "aigen.save_script" "Save Script"
                        "FILE_TICK" ] ]) ].

(** The names of the settings a layout lets the user edit. *)
Fixpoint fields_of (u : ui) : list string :=
  match u with
  | PropField name _ => [name]
  | Box items | Row _ items | Column _ items =>
      concat (List.map fields_of items)
  | Label _ _ | OperatorButton _ _ _ => []
  end.

Definition drawn_fields (props : AIGenProperties) : list string :=
  concat (List.map fields_of (draw props)).

(** The operators a layout has a button for. *)
Fixpoint buttons_of (u : ui) : list string :=
  match u with
  | OperatorButton idname _ _ => [idname]
  | Box items | Row _ items | Column _ items =>
      concat (List.map buttons_of items)
  | Label _ _ | PropField _ _ => []
  end.

(** The identifier of a provider, the value of the [api_provider] enum. *)
Definition provider_id (p : api_provider_t) : string :=
  match p with
  | GEMINI => "GEMINI"
  | GROQ => "GROQ"
  | OPENAI => "OPENAI"
  | ANTHROPIC => "ANTHROPIC"
  | CUSTOM => "CUSTOM"
  end.

(** The value of a setting, by the name [prop(props, name)] gives. *)
Definition setting (props : AIGenProperties) (name : string) : option pyval :=
  if String.eqb name "prompt" then Some (PyStr (prompt props))
  else if String.eqb name "api_provider" then
    Some (PyStr (lit (provider_id (api_provider props))))
  else if String.eqb name "groq_model" then Some (PyStr (groq_model props))
  else if String.eqb name "openai_model" then Some (PyStr (openai_model props))
  else if String.eqb name "anthropic_model" then
    Some (PyStr (anthropic_model props))
  else if String.eqb name "api_url" then Some (PyStr (api_url props))
  else if String.eqb name "api_key" then Some (PyStr (api_key props))
  else if String.eqb name "auto_clear" then Some (PyBool (auto_clear props))
  else None.

(* ===================================================================== *)
(** ** Vocabulary of the further properties *)
(* ===================================================================== *)

(** An HTTP request among the events. *)
Definition is_post (e : event) : bool :=
  match e with
  | HttpPost _ => true
  | Report _ _ => false
  end.

(** A string with no whitespace at either end. *)
Definition is_stripped (s : pystr) : Prop := strip s = s.

(** Events among which there is no HTTP request. *)
Definition reports_only (evs : list event) : Prop :=
  Forall (fun e => is_post e = false) evs.

(** Provider code that sends nothing. *)
Definition quiet {A} (m : W A) : Prop := reports_only (snd m).

(** An outcome that is [None] or a stripped string, when it is a value. *)
Definition none_or_clean (r : res pyval) : Prop :=
  match r with
  | Ret v => v = PyNone \/ exists s, v = PyStr s /\ is_stripped s
  | Raise _ => True
  end.

(** Provider code that sends nothing and returns [None] or a stripped
    string. *)
Definition tame (m : W pyval) : Prop := none_or_clean (fst m) /\ quiet m.

(** Whether a provider call gets as far as its request. *)
Definition sends_request (props : AIGenProperties) : bool :=
  negb (requires_credential (api_provider props) && key_missing props).



(** The message of the custom call for an exception, by the first
    [except] clause that accepts it. *)
Definition custom_failure_message (builtin_msg : builtin_error -> pystr)
    (e : pyexn) : pystr :=
  if exc_RequestException e then lit "Network Error: " ++ exn_str builtin_msg e
  else if exc_JSONDecodeError e then lit "Invalid JSON response from API"
  else lit "API Error: " ++ exn_str builtin_msg e.

(** A second host for tests, whose delete operator refuses to run (as in
    edit mode) and whose scripts read as in [Fixtures.test_host]. *)
Module MoreFixtures.

Definition poll_failed : pyexn :=
  Thrown (ExnClass true false false)
    (lit "Operator bpy.ops.object.delete.poll() failed, context is incorrect").

Definition edit_mode_host : Host := {|
  scene := Fixtures.test_scene;
  collection := pystr;
  ops_object_select_all := fun s => (Ret tt, s);
  ops_object_delete := fun s => (Raise poll_failed, s);
  data_collections_new := fun name s =>
    (Ret name,
     Fixtures.TestScene (Fixtures.objects s) (name :: Fixtures.collections s));
  collection_children_link := fun _ s => (Ret tt, s);
  py_exec := fun code _ s => Fixtures.exec_script code s;
  view_layer_update := fun s => (Ret tt, s);
  py_exec_encodes := ltac:(by intros code c s Hs; cbv beta; unfold Fixtures.exec_script; rewrite Hs)
|}.

(** A connection that times out. *)
Definition timed_out : pyexn :=
  Thrown (ExnClass true true false) (lit "Read timed out.").

Definition no_network : http_request -> res response :=
  fun _ => Raise timed_out.

Definition get_answers (r : response) : pystr -> Z -> res response :=
  fun _ _ => Ret r.

(** A 200 response whose body is not JSON: what [.json()] raises is a
    [JSONDecodeError] of the [json] module only, or (requests 2.27 and
    later) one that is a [RequestException] too. *)
Definition not_json (also_request_exception : bool) : response :=
  Response 200 (lit "<html>")
    (Raise (Thrown (ExnClass true also_request_exception true)
              (lit "Expecting value"))).

(** A 200 response of the custom shape whose script is the number 5. *)
Definition number_script : response :=
  Response 200 (lit "{'script': 5}") (Ret (dict [("script", PyInt 5)])).

(** A 200 response of the custom shape whose script creates two objects. *)
Definition two_cubes : response :=
  Response 200 (lit "{'script': 'cc'}") (Ret (dict [("script", PyStr (lit "cc"))])).

(** A 200 response of the custom shape whose script holds a lone
    surrogate (the JSON escape [\ud800] inside a string literal). *)
Definition unprintable_script : response :=
  Response 200 (lit "{'script': 'c = 1 # \ud800'}")
    (Ret (dict [("script", PyStr (lit "c = 1 # " ++ [55296%N]))])).




(** A 200 chat completion whose message has no text ([content] is
    [null], as in a reply that only calls a tool). *)
Definition null_message : gmap pystr pyval :=
  list_to_map [ (lit "role", PyStr (lit "assistant"));
                (lit "content", PyNone) ].

Definition null_choice : gmap pystr pyval :=
  list_to_map [ (lit "message", PyDict null_message) ].

Definition null_content_body : gmap pystr pyval :=
  list_to_map [ (lit "choices", PyList [PyDict null_choice]) ].

Definition null_content : response :=
  Response 200 (lit "{'choices': ...}") (Ret (PyDict null_content_body)).

(** The settings of [Fixtures.settings OPENAI "sk-1"], with another Groq
    model, another Claude model and another endpoint selected. *)
Definition other_hidden_settings : AIGenProperties := {|
  prompt := lit "Create a simple cube";
  api_provider := OPENAI;
  groq_model := lit "gemma2-9b-it";
  openai_model := lit "gpt-4.1-mini";
  anthropic_model := lit "claude-3-opus-20240229";
  api_url := lit "http://example.org/";
  api_key := lit "sk-1";
  auto_clear := true
|}.

End MoreFixtures.

(* ===================================================================== *)
(** * Properties *)
(* ===================================================================== *)

(** ** Strings *)

Section StrLemmas.
Implicit Types p sep s r b a : pystr.

Lemma startswith_app p r : startswith p (p ++ r) = true.
Proof. induction p as [|c p IH]; simpl; [done|]. by rewrite N.eqb_refl. Qed.

Lemma startswith_split p s : startswith p s = true -> s = p ++ drop (length p) s.
Proof.
  revert s. induction p as [|c p IH]; intros [|d s] Hs; simpl in *; try done.
  apply andb_true_iff in Hs as [Hc Hs]. apply N.eqb_eq in Hc. subst.
  f_equal. by apply IH.
Qed.

Lemma find_sep_app sep s b a : find_sep sep s = Some (b, a) -> s = b ++ sep ++ a.
Proof.
  revert b a. induction s as [|c s IH]; intros b a Hf.
  - cbn in Hf. destruct (startswith sep []) eqn:E; [|done].
    inversion Hf; subst. simpl. by apply startswith_split in E.
  - cbn [find_sep] in Hf. destruct (startswith sep (c :: s)) eqn:E.
    + inversion Hf; subst. simpl. by apply startswith_split in E.
    + destruct (find_sep sep s) as [[b' a']|]; [|done]. inversion Hf; subst.
      simpl. f_equal. by apply IH.
Qed.

Lemma split_unfold sep s :
  sep <> [] ->
  split sep s = match find_sep sep s with
                | Some (b, a) => b :: split sep a
                | None => [s]
                end.
Proof.
  intros Hsep. destruct sep as [|x sep]; [done|].
  simp split.
  destruct (inspect (find_sep (x :: sep) s)) as [[[b a]|] E].
  - transitivity (b :: split (x :: sep) a); [by simp split | by rewrite E].
  - transitivity [s]; [by simp split | by rewrite E].
Qed.

Lemma split_head sep s : sep <> [] -> split sep s !! 0 = Some (before_first sep s).
Proof.
  intros Hsep. rewrite split_unfold by done. unfold before_first.
  by destruct (find_sep sep s) as [[b a]|].
Qed.

Lemma find_sep_prefix sep r : find_sep sep (sep ++ r) = Some ([], r).
Proof.
  destruct (sep ++ r) as [|c s] eqn:E; cbn [find_sep];
    rewrite <- E, startswith_app, drop_app_length; done.
Qed.

Lemma split_second sep r :
  sep <> [] -> split sep (sep ++ r) !! 1 = Some (before_first sep r).
Proof.
  intros Hsep. rewrite split_unfold, find_sep_prefix by done.
  simpl. by apply split_head.
Qed.

(** The text before the first occurrence holds no occurrence. *)
Lemma find_sep_before sep s b a :
  sep <> [] -> find_sep sep s = Some (b, a) -> find_sep sep b = None.
Proof.
  intros Hsep. revert b a. induction s as [|c s IH]; intros b a Hf.
  - destruct sep; [done|]. discriminate Hf.
  - cbn [find_sep] in Hf. destruct (startswith sep (c :: s)) eqn:E.
    + inversion Hf; subst. destruct sep; done.
    + destruct (find_sep sep s) as [[b' a']|] eqn:E'; [|done].
      inversion Hf; subst. cbn [find_sep].
      rewrite (IH _ _ eq_refl).
      destruct (startswith sep (c :: b')) eqn:E2; [|done].
      exfalso. apply startswith_split in E2.
      apply find_sep_app in E'. 
      assert (startswith sep (c :: s) = true); [|congruence].
      rewrite E'. rewrite app_comm_cons, E2.
      rewrite <- app_assoc. apply startswith_app.
Qed.

Lemma before_first_idem sep s :
  sep <> [] -> before_first sep (before_first sep s) = before_first sep s.
Proof.
  intros Hsep. unfold before_first at 2 3.
  destruct (find_sep sep s) as [[b a]|] eqn:E.
  - unfold before_first. by rewrite (find_sep_before _ _ _ _ Hsep E).
  - unfold before_first. by rewrite E.
Qed.

Lemma startswith_longer p x s : startswith (p ++ x) s = true -> startswith p s = true.
Proof.
  revert s. induction p as [|c p IH]; intros [|d s] Hs; simpl in *; try done.
  apply andb_true_iff in Hs as [Hc Hs]. rewrite Hc. simpl. by apply IH.
Qed.

(** Where a marker does not occur, no text that begins with it does. *)
Lemma find_sep_none_longer p x s :
  find_sep p s = None -> find_sep (p ++ x) s = None.
Proof.
  induction s as [|c s IH]; intros Hf.
  - cbn [find_sep] in *. destruct (startswith p []) eqn:E; [done|].
    destruct (startswith (p ++ x) []) eqn:E'; [|done].
    apply startswith_longer in E'. congruence.
  - cbn [find_sep] in *. destruct (startswith p (c :: s)) eqn:E; [done|].
    destruct (startswith (p ++ x) (c :: s)) eqn:E'.
    { apply startswith_longer in E'. congruence. }
    destruct (find_sep p s) as [[b a]|]; [done|]. by rewrite IH.
Qed.




Lemma find_sep_occurs sep x y : is_Some (find_sep sep (x ++ sep ++ y)).
Proof.
  induction x as [|c x IH].
  - simpl. rewrite find_sep_prefix. eauto.
  - change ((c :: x) ++ sep ++ y) with (c :: (x ++ sep ++ y)).
    cbn [find_sep]. destruct (startswith sep _); [eauto|].
    destruct IH as [[b a] ->]. eauto.
Qed.

Lemma contains_app_r sub x s : contains sub s = true -> contains sub (x ++ s) = true.
Proof.
  unfold contains. destruct (find_sep sub s) as [[b a]|] eqn:E; [|done].
  intros _. apply find_sep_app in E. subst.
  rewrite app_assoc. by destruct (find_sep_occurs sub (x ++ b) a) as [? ->].
Qed.






End StrLemmas.

Lemma py_split_str s sep :
  sep <> [] -> py_split (PyStr s) sep = Ret (PyList (PyStr <$> split sep s)).
Proof. by destruct sep. Qed.

Lemma py_index_strs (l : list pystr) i x :
  l !! i = Some x -> py_index (PyList (PyStr <$> l)) i = Ret (PyStr x).
Proof. intros Hl. cbn [py_index]. by rewrite list_lookup_fmap, Hl. Qed.

Lemma strip_fence_str marker rest :
  marker <> [] ->
  strip_fence (PyStr (marker ++ rest)) marker
  = Ret (PyStr (before_first fence (before_first marker rest))).
Proof.
  intros Hm. unfold strip_fence.
  rewrite py_split_str by done. cbn [bind res_Seq].
  rewrite (py_index_strs _ _ _ (split_second _ _ Hm)).
  rewrite py_split_str by done.
  apply py_index_strs, split_head. done.
Qed.

Lemma clean_content_str text :
  clean_content (PyStr text) = Ret (PyStr (strip (fenced_inner text))).
Proof.
  unfold clean_content, fenced_inner.
  cbn [py_len py_prefix bind res_Seq py_startswith].
  destruct (startswith fence_python text) eqn:Ep.
  - rewrite (startswith_split _ _ Ep) at 1.
    rewrite strip_fence_str by done. done.
  - cbn [bind res_Seq]. destruct (startswith fence text) eqn:Ef.
    + rewrite (startswith_split _ _ Ef) at 1.
      rewrite strip_fence_str by done.
      rewrite before_first_idem by done. done.
    + done.
Qed.

(** A string strips to nothing exactly when it is empty or made of
    whitespace only. *)
Lemma lstrip_nil_iff (s : pystr) : lstrip s = [] <-> forallb is_space s = true.
Proof.
  induction s as [|c s IH]; simpl; [done|].
  destruct (is_space c); simpl; [done|]. split; done.
Qed.

Lemma strip_nil_iff (s : pystr) : strip s = [] <-> forallb is_space s = true.
Proof.
  rewrite <- lstrip_nil_iff. unfold strip, rstrip. split.
  - intros Hs. apply (f_equal (@rev N)) in Hs. rewrite rev_involutive in Hs.
    simpl in Hs. apply lstrip_nil_iff in Hs.
    destruct (lstrip s) as [|c l] eqn:E; [done|].
    assert (forallb is_space (c :: l) = true) as Hall.
    { rewrite forallb_forall in *. intros x Hx. apply Hs, in_rev.
      by rewrite rev_involutive. }
    assert (is_space c = false) as Hc.
    { clear -E. induction s as [|d s IH]; simpl in E; [done|].
      destruct (is_space d) eqn:Ed; [by apply IH | congruence]. }
    simpl in Hall. rewrite Hc in Hall. done.
  - by intros ->.
Qed.

(** ** The clean-up of the generated text *)

Lemma lstrip_suffix (s : pystr) :
  exists pre, s = pre ++ lstrip s /\ forallb is_space pre = true.
Proof.
  induction s as [|c s (pre & Hs & Hpre)]; [by exists []|].
  simpl. destruct (is_space c) eqn:Hc.
  - exists (c :: pre). simpl. rewrite Hc, Hpre. by rewrite <- Hs.
  - by exists [].
Qed.

Lemma rstrip_prefix (s : pystr) :
  exists post, s = rstrip s ++ post /\ forallb is_space post = true.
Proof.
  unfold rstrip. destruct (lstrip_suffix (rev s)) as (pre & Hs & Hpre).
  exists (rev pre). split.
  - rewrite <- rev_app_distr, <- Hs. by rewrite rev_involutive.
  - rewrite forallb_forall in *. intros x Hx. apply Hpre. by apply in_rev.
Qed.

Lemma lstrip_head (s : pystr) c t : lstrip s = c :: t -> is_space c = false.
Proof.
  induction s as [|d s IH]; simpl; [done|].
  destruct (is_space d) eqn:Hd; [done|]. congruence.
Qed.

Lemma lstrip_fixed c (t : pystr) : is_space c = false -> lstrip (c :: t) = c :: t.
Proof. intros Hc. simpl. by rewrite Hc. Qed.

Lemma lstrip_idem (s : pystr) : lstrip (lstrip s) = lstrip s.
Proof.
  destruct (lstrip s) as [|c t] eqn:E; [done|].
  apply lstrip_fixed. by apply (lstrip_head s c t).
Qed.

Lemma rstrip_idem (s : pystr) : rstrip (rstrip s) = rstrip s.
Proof. unfold rstrip. by rewrite rev_involutive, lstrip_idem. Qed.

Lemma strip_idem (s : pystr) : strip (strip s) = strip s.
Proof.
  unfold strip at 1.
  assert (lstrip (strip s) = strip s) as ->.
  { unfold strip.
    destruct (rstrip_prefix (lstrip s)) as (post & Hs & _).
    destruct (rstrip (lstrip s)) as [|c t] eqn:E; [done|].
    apply lstrip_fixed. apply (lstrip_head s c (t ++ post)).
    by rewrite Hs. }
  apply rstrip_idem.
Qed.






(** The clean-up with its debug prints: the cleaned text is returned
    unless its preview cannot be printed. *)
Lemma clean_and_return_str text :
  clean_and_return (PyStr text)
  = if has_surrogate (take 200 (strip (fenced_inner text)))
    then Raise (Builtin UnicodeEncodeError)
    else Ret (PyStr (strip (fenced_inner text))).
Proof.
  unfold clean_and_return. rewrite clean_content_str.
  cbn [bind res_Seq log_preview py_len py_prefix print_value].
  unfold py_print. by destruct (has_surrogate _).
Qed.





(** C10: a text that starts with a fence marker ([```] or [```python])
    and holds no fence after it is cleaned without an error, to all that
    follows the opening marker, stripped of surrounding whitespace. *)
Theorem clean_content_unclosed_fence (text : pystr) :
  startswith fence text = true ->
  contains fence (drop (length (opening_marker text)) text) = false ->
  clean_content (PyStr text)
  = Ret (PyStr (strip (drop (length (opening_marker text)) text))).
Proof.
  intros Hf Hno. rewrite clean_content_str. do 2 f_equal.
  unfold fenced_inner, opening_marker in *.
  unfold contains in Hno.
  destruct (startswith fence_python text).
  - destruct (find_sep fence _) as [|] eqn:E; [done|].
    unfold before_first at 2.
    change fence_python with (fence ++ lit "python") at 1.
    rewrite (find_sep_none_longer _ _ _ E).
    unfold before_first. by rewrite E.
  - rewrite Hf. unfold before_first.
    by destruct (find_sep fence _).
Qed.

Lemma clean_content_unclosed_fence_witness :
  clean_content (PyStr (lit "```python  import bpy "))
  = Ret (PyStr (lit "import bpy")).
Proof.
  rewrite (clean_content_unclosed_fence (lit "```python  import bpy "));
    reflexivity.
Defined.

(** ** The provider adapter and the operator *)

Section Properties.

Context {H : Host}.
Variable repr : pyval -> pystr.
Variable builtin_msg : builtin_error -> pystr.
Variable requests_post : http_request -> res response.

Local Abbreviation call_api := (call_api repr builtin_msg requests_post).
Local Abbreviation execute := (execute repr builtin_msg requests_post).
Local Abbreviation execute_script := (execute_script builtin_msg).

#[local] Arguments lit : simpl never.
#[local] Arguments strip : simpl never.
#[local] Arguments str_of_int : simpl never.
#[local] Arguments has_path : simpl never.
#[local] Arguments has_nonempty : simpl never.
#[local] Arguments clean_content : simpl never.

Lemma key_missing_iff props :
  key_missing props = true <-> forallb is_space (api_key props) = true.
Proof.
  unfold key_missing. rewrite bool_decide_eq_true. apply strip_nil_iff.
Qed.

(** The operator on a call that returned no script. *)
Lemma execute_no_script props s v evs :
  forallb is_space (prompt props) = false ->
  call_api props = (Ret v, evs) ->
  script_present v = Ret false ->
  execute props s
  = (Ret CANCELLED,
     Report INFO (lit "Generating model for: " ++ prompt props)
       :: evs ++ [Report ERROR (lit "Failed to get valid script from API")],
     s).
Proof.
  intros Hp Hcall Hscript. unfold execute.
  rewrite bool_decide_eq_false_2.
  2:{ rewrite strip_nil_iff. congruence. }
  unfold try_exceptM. cbn. rewrite Hcall. cbn. rewrite Hscript. cbn.
  done.
Qed.

(** C1: for GEMINI, GROQ, OPENAI and ANTHROPIC, a request whose API key
    is empty or made of whitespace only is rejected with the message that
    asks for the key, and no HTTP request is issued: the call returns
    [None] and its only event is that report; the generate action then
    ends CANCELLED, again without any [HttpPost] event, and leaves the
    scene as it was. *)
Theorem missing_key_rejected props s :
  requires_credential (api_provider props) = true ->
  forallb is_space (api_key props) = true ->
  let msg := lit "Please enter your " ++ lit (provider_name (api_provider props))
             ++ lit " API key" in
  call_api props = (Ret PyNone, [Report ERROR msg])
  /\ (forallb is_space (prompt props) = false ->
      execute props s
      = (Ret CANCELLED,
         [ Report INFO (lit "Generating model for: " ++ prompt props);
           Report ERROR msg;
           Report ERROR (lit "Failed to get valid script from API") ],
         s)).
Proof.
  intros Hreq Hkey msg. apply key_missing_iff in Hkey.
  assert (call_api props = (Ret PyNone, [Report ERROR msg])) as Hcall.
  { unfold call_api, call_gemini_api, call_groq_api, call_openai_api,
      call_anthropic_api, msg.
    destruct (api_provider props); try discriminate Hreq;
      rewrite Hkey; reflexivity. }
  split; [exact Hcall|]. intros Hp.
  by rewrite (execute_no_script props s PyNone _ Hp Hcall).
Qed.

Lemma simple_api_error_fails name r :
  fst (simple_api_error repr name r) = Ret PyNone.
Proof. reflexivity. Qed.

Lemma typed_api_error_fails name t1 m1 t2 m2 r :
  fst (typed_api_error repr name t1 m1 t2 m2 r) = Ret PyNone.
Proof. reflexivity. Qed.

(** The bind of provider code on its first component. *)
Lemma fst_bind_post {A} req r (k : response -> W A) :
  requests_post req = Ret r ->
  fst (bind (post requests_post req) k) = fst (k r).
Proof.
  intros Hr. unfold post. cbn. rewrite Hr. by destruct (k r).
Qed.

(** C3: for every provider, when the response to the request of the call
    has a status other than 200, the call returns the failure value
    [None], never a text. *)
Theorem non_200_fails props r :
  requests_post (provider_request props) = Ret r ->
  status_code r <> 200%Z ->
  fst (call_api props) = Ret PyNone.
Proof.
  intros Hpost Hstatus.
  assert (bool_decide (status_code r = 200%Z) = false) as Hb
    by by apply bool_decide_eq_false_2.
  unfold call_api, provider_request in *.
  assert (forall m : W pyval, fst m = Ret PyNone ->
            fst (try_except m
                   [ (exc_Exception,
                      fun e => report ERROR (lit "API Error: "
                                             ++ exn_str builtin_msg e) ;;
                               ret PyNone) ]) = Ret PyNone) as Htry.
  { intros [[v|e] evs]; simpl; congruence. }
  apply Htry.
  destruct (api_provider props).
  - unfold call_gemini_api. destruct (key_missing props); [done|].
    rewrite (fst_bind_post _ _ _ Hpost), Hb. apply simple_api_error_fails.
  - unfold call_groq_api. destruct (key_missing props); [done|].
    rewrite (fst_bind_post _ _ _ Hpost), Hb. apply simple_api_error_fails.
  - unfold call_openai_api. destruct (key_missing props); [done|].
    rewrite (fst_bind_post _ _ _ Hpost), Hb. apply typed_api_error_fails.
  - unfold call_anthropic_api. destruct (key_missing props); [done|].
    rewrite (fst_bind_post _ _ _ Hpost), Hb. apply typed_api_error_fails.
  - unfold call_custom_api.
    assert (forall (m : W pyval) cl, fst m = Ret PyNone ->
              fst (try_except m cl) = Ret PyNone) as Htry'.
    { intros [[v|e] evs] cl; simpl; congruence. }
    apply Htry'. rewrite (fst_bind_post _ _ _ Hpost), Hb. done.
Qed.

Lemma key_present_iff props :
  key_missing props = false <-> forallb is_space (api_key props) = false.
Proof.
  rewrite <- !not_true_iff_false. by rewrite key_missing_iff.
Qed.

(** Provider code after the request has been answered. *)
Lemma bind_post {A} req r (k : response -> W A) :
  requests_post req = Ret r ->
  bind (post requests_post req) k = (fst (k r), HttpPost req :: snd (k r)).
Proof.
  intros Hr. unfold post. cbn. rewrite Hr. by destruct (k r).
Qed.

(** [k in d and len(d[k]) > 0] on a [dict]. *)
Lemma has_nonempty_dict (k : string) (d : gmap pystr pyval) :
  has_nonempty k (PyDict d)
  = match d !! lit k with
    | Some x => (n <- py_len x ;; ret (bool_decide (0 < n)), [])
    | None => (Ret false, [])
    end.
Proof.
  unfold has_nonempty, py_and, eval. cbn.
  destruct (d !! lit k) as [x|]; cbn; [|done].
  by destruct (py_len x).
Qed.



(** [k1 in c and k2 in c[k1]] on a [dict]. *)
Lemma has_path_dict (k1 k2 : string) (c : gmap pystr pyval) :
  has_path k1 k2 (PyDict c)
  = match c !! lit k1 with
    | Some x => (py_in (lit k2) x, [])
    | None => (Ret false, [])
    end.
Proof.
  unfold has_path, py_and, eval. cbn.
  destruct (c !! lit k1) as [x|]; cbn; [|done].
  by destruct (py_in (lit k2) x).
Qed.



(** C5: for the Gemini provider, a 200 response with the body
    [{"candidates":[{"content":{"parts":[{"text":"```python\nX\n```"}]}}]}]
    yields the text [X]. *)
Theorem gemini_fenced_example (props : AIGenProperties) (r : response) :
  api_provider props = GEMINI ->
  forallb is_space (api_key props) = false ->
  requests_post (gemini_request props) = Ret r ->
  status_code r = 200%Z ->
  json r = Ret gemini_fenced_body ->
  call_api props = (Ret (PyStr (lit "X")), [HttpPost (gemini_request props)]).
Proof.
  intros Hp Hkey Hpost Hstatus Hjson. apply key_present_iff in Hkey.
  unfold call_api, call_gemini_api.
  rewrite Hp, Hkey, (bind_post _ _ _ Hpost), Hstatus, Hjson.
  rewrite bool_decide_eq_true_2 by done.
  generalize (gemini_request props). intros req. by vm_compute.
Qed.

(** The executor once the scene is set up: what [exec] and the refresh
    of the view layer return decides the rest. *)
Lemma execute_script_after_setup props code s s3 c :
  setup_succeeds props s s3 c ->
  execute_script (PyStr code) props s
  = let '(r, s') :=
      match py_exec code c s3 with
      | (Ret _, s4) => view_layer_update s4
      | (Raise e, s4) => (Raise e, s4)
      end in
    match r with
    | Ret _ => (Ret tt, [], s')
    | Raise e =>
        if exc_Exception e then
          match py_str builtin_msg e with
          | Ret msg =>
              (print_exn e,
               [Report ERROR (lit "Script execution error: " ++ msg)], s')
          | Raise e' => (Raise e', [], s')
          end
        else (Raise e, [], s')
    end.
Proof.
  intros (s1 & s2 & Hclear & Hnew & Hlink).
  assert (forall e (s' : scene),
            match handler_of
                    [ (exc_Exception,
                       fun e =>
                         msg <- liftW (eval (py_str builtin_msg e)) ;;
                         liftW (report ERROR (lit "Script execution error: "
                                              ++ msg)) ;;
                         liftW (eval (print_exn e))) ] e with
            | Some h => let '(r, evs', s'') := h s' in (r, [] ++ evs', s'')
            | None => (Raise e, [], s')
            end
            = if exc_Exception e then
                match py_str builtin_msg e with
                | Ret msg =>
                    (print_exn e,
                     [Report ERROR (lit "Script execution error: " ++ msg)], s')
                | Raise e' => (Raise e', [], s')
                end
              else (Raise e, [], s')) as Hh.
  { intros e s'. cbn [handler_of]. destruct (exc_Exception e); [|done].
    cbn [bind M_Seq liftW eval report fst snd].
    destruct (py_str builtin_msg e) as [msg|e']; [|done].
    by destruct (print_exn e) as [[]|e']. }
  unfold execute_script, try_exceptM. cbn [bind M_Seq liftW eval fst snd py_len].
  rewrite Hclear. unfold host at 1. rewrite Hnew. cbn [app].
  unfold host at 1. rewrite Hlink. cbn [app exec].
  unfold host at 1. destruct (py_exec code c s3) as [[[]|e] s4].
  - unfold host. destruct (view_layer_update s4) as [[[]|e] s5]; [done|].
    apply Hh.
  - apply Hh.
Qed.


Lemma script_present_str code :
  script_present (PyStr code) = Ret (negb (forallb is_space code)).
Proof.
  unfold script_present, truthy. case_bool_decide as Hc.
  - by subst.
  - cbn. f_equal. case_bool_decide as Hs; simpl.
    + apply strip_nil_iff in Hs. by rewrite Hs.
    + rewrite strip_nil_iff in Hs. by destruct (forallb is_space code).
Qed.

(** The handler of an operator, taken through its cases. *)
Ltac run_handler e :=
  cbn [handler_of]; destruct (exc_Exception e); [|by rewrite ?app_nil_r];
  cbn [bind M_Seq liftW eval report fst snd];
  destruct (py_str _ e) as [?|?]; [|cbn; by rewrite ?app_nil_r];
  destruct (print_exn e) as [[]|?]; cbn; by rewrite ?app_nil_r, <- ?app_assoc.

(** The operator with a prompt, in terms of the provider call, the test
    on the script, its print and the executor. *)
Lemma execute_with_prompt props s :
  forallb is_space (prompt props) = false ->
  execute props s
  = let start := Report INFO (lit "Generating model for: " ++ prompt props) in
    let failed e evs s' :=
      if exc_Exception e then
        match py_str builtin_msg e with
        | Ret msg =>
            (match print_exn e with
             | Ret _ => Ret CANCELLED
             | Raise e' => Raise e'
             end,
             start :: evs ++ [Report ERROR (lit "Error: " ++ msg)], s')
        | Raise e' => (Raise e', start :: evs, s')
        end
      else (Raise e, start :: evs, s') in
    match call_api props with
    | (Raise e, evs) => failed e evs s
    | (Ret script_code, evs) =>
        match script_present script_code with
        | Raise e => failed e evs s
        | Ret false =>
            (Ret CANCELLED,
             start :: evs
               ++ [Report ERROR (lit "Failed to get valid script from API")],
             s)
        | Ret true =>
            match print_value script_code with
            | Raise e => failed e evs s
            | Ret _ =>
                match execute_script script_code props s with
                | (Raise e, evs', s') => failed e (evs ++ evs') s'
                | (Ret _, evs', s') =>
                    (Ret FINISHED,
                     start :: evs ++ evs'
                       ++ [Report INFO (lit "Model generated successfully!")],
                     s')
                end
            end
        end
    end.
Proof.
  intros Hp. unfold execute. rewrite bool_decide_eq_false_2.
  2:{ rewrite strip_nil_iff. congruence. }
  unfold try_exceptM. cbn [bind M_Seq liftW report fst snd eval app].
  destruct (call_api props) as [[v|e] evs]; cbn [fst snd];
    [|by run_handler e].
  destruct (script_present v) as [[|]|e]; cbn [app]; [| |by run_handler e].
  - destruct (print_value v) as [[]|e]; cbn [app]; [|by run_handler e].
    destruct (execute_script v props s) as [[[u|e] evs'] s']; cbn [app];
      [|by run_handler e].
    cbn. by rewrite ?app_nil_r, <- ?app_assoc.
  - cbn. by rewrite ?app_nil_r, <- ?app_assoc.
Qed.


(** C8: when the provider call returns [None] or a script that is empty
    or made of whitespace only, the generate action ends CANCELLED and the
    scene is the one it started from: nothing was deleted and no
    collection was created. *)
Theorem no_script_scene_unchanged props s v evs :
  call_api props = (Ret v, evs) ->
  v = PyNone \/ (exists code, v = PyStr code /\ forallb is_space code = true) ->
  snd (execute props s) = s /\ fst (fst (execute props s)) = Ret CANCELLED.
Proof.
  intros Hcall Hv.
  destruct (forallb is_space (prompt props)) eqn:Hp.
  - unfold execute. rewrite bool_decide_eq_true_2; [done|].
    by apply strip_nil_iff.
  - rewrite (execute_no_script props s v evs Hp Hcall); [done|].
    destruct Hv as [-> | (code & -> & Hcode)]; [done|].
    by rewrite script_present_str, Hcode.
Qed.

(** An exception that is no [Exception] ([SystemExit],
    [KeyboardInterrupt]) is not seen by the handler of the executor: it
    leaves it, and nothing is reported. *)
Lemma execute_script_lets_through props code s s3 s4 c e :
  setup_succeeds props s s3 c ->
  py_exec code c s3 = (Raise e, s4) ->
  exc_Exception e = false ->
  execute_script (PyStr code) props s = (Raise e, [], s4).
Proof.
  intros Hsetup Hexec He.
  rewrite (execute_script_after_setup _ _ _ _ _ Hsetup), Hexec.
  cbn iota. by rewrite He.
Qed.

(** The provider call never touches the scene: the operator changes it
    only inside [execute_script]. *)
Lemma execute_without_script_keeps_scene props s v evs :
  call_api props = (Ret v, evs) ->
  script_present v <> Ret true ->
  snd (execute props s) = s.
Proof.
  intros Hcall Hv. unfold execute. case_bool_decide; [done|].
  unfold try_exceptM. cbn [bind M_Seq liftW report fst snd eval].
  rewrite Hcall. cbn [fst snd].
  destruct (script_present v) as [[|]|e]; [done|done|].
  cbn [handler_of]. destruct (exc_Exception e); [|done].
  cbn [bind M_Seq liftW eval report fst snd].
  destruct (py_str builtin_msg e); [|done]. by destruct (print_exn e).
Qed.

End Properties.

(** ** The properties on the fixtures *)

Import Fixtures.

Local Abbreviation call_with r := (call_api no_repr no_msg (answers r)).
Local Abbreviation execute_with r :=
  (execute (H := test_host) no_repr no_msg (answers r)).

Lemma missing_key_rejected_witness :
  call_with server_error (settings GROQ "  ")
  = (Ret PyNone, [Report ERROR (lit "Please enter your Groq API key")])
  /\ execute_with server_error (settings GROQ "  ") old_scene
     = (Ret CANCELLED,
        [ Report INFO (lit "Generating model for: Create a simple cube");
          Report ERROR (lit "Please enter your Groq API key");
          Report ERROR (lit "Failed to get valid script from API") ],
        old_scene).
Proof.
  destruct (missing_key_rejected (H := test_host) no_repr no_msg
              (answers server_error) (settings GROQ "  ") old_scene
              eq_refl eq_refl) as [Hcall Hexecute].
  split; [exact Hcall | exact (Hexecute eq_refl)].
Defined.

Lemma non_200_fails_witness :
  fst (call_with server_error (settings ANTHROPIC "sk-1")) = Ret PyNone.
Proof.
  apply (non_200_fails no_repr no_msg (answers server_error)
           (settings ANTHROPIC "sk-1") server_error);
    [reflexivity | discriminate].
Defined.


Lemma gemini_fenced_example_witness :
  call_with (Response 200 [] (Ret gemini_fenced_body)) (settings GEMINI "key")
  = (Ret (PyStr (lit "X")), [HttpPost (gemini_request (settings GEMINI "key"))]).
Proof.
  apply (gemini_fenced_example no_repr no_msg _ (settings GEMINI "key")
           (Response 200 [] (Ret gemini_fenced_body)));
    reflexivity.
Defined.







Lemma no_script_scene_unchanged_witness :
  snd (execute_with server_error (settings GEMINI "key") old_scene) = old_scene
  /\ fst (fst (execute_with server_error (settings GEMINI "key") old_scene))
     = Ret CANCELLED.
Proof.
  apply (no_script_scene_unchanged (H := test_host) no_repr no_msg
           (answers server_error) (settings GEMINI "key") old_scene PyNone
           [ HttpPost (gemini_request (settings GEMINI "key"));
             Report ERROR (lit "Gemini API Error: 500") ]).
  - reflexivity.
  - left. reflexivity.
Defined.

(** ** Sample runs *)

Example split_sample :
  split (lit "--") (lit "a--b----c-") = [lit "a"; lit "b"; []; lit "c-"].
Proof. reflexivity. Qed.

Example strip_sample : strip (lit "  a b   ") = lit "a b".
Proof. reflexivity. Qed.

Example clean_plain_fence :
  clean_content (PyStr (lit "```js X ``` tail")) = Ret (PyStr (lit "js X")).
Proof. reflexivity. Qed.

Example clean_no_fence :
  clean_content (PyStr (lit "  import bpy ```x``` ")) = Ret (PyStr (lit "import bpy ```x```")).
Proof. reflexivity. Qed.

Example clean_not_a_string :
  extract_script (PyInt 3) = Raise (Builtin TypeError)
  /\ clean_content (PyInt 3) = Raise (Builtin (AttributeError "startswith")).
Proof. split; reflexivity. Qed.

(** A text with a lone surrogate is cleaned, but its preview cannot be
    printed: the clean-up raises before it returns. *)
Example clean_unprintable :
  clean_content (PyStr (lit "x = '" ++ [55296%N] ++ lit "'"))
  = Ret (PyStr (lit "x = '" ++ [55296%N] ++ lit "'"))
  /\ clean_and_return (PyStr (lit "x = '" ++ [55296%N] ++ lit "'"))
     = Raise (Builtin UnicodeEncodeError).
Proof. split; reflexivity. Qed.

(* ===================================================================== *)
(** * Further properties *)
(* ===================================================================== *)

(** ** The clean-up never adds a character *)




(** ** The provider calls *)

Section MoreAdapter.

Variable repr : pyval -> pystr.
Variable builtin_msg : builtin_error -> pystr.
Variable requests_post : http_request -> res response.

Local Abbreviation call_api := (call_api repr builtin_msg requests_post).

#[local] Arguments lit : simpl never.
#[local] Arguments strip : simpl never.
#[local] Arguments str_of_int : simpl never.
#[local] Arguments clean_content : simpl never.
#[local] Arguments has_path : simpl never.
#[local] Arguments has_nonempty : simpl never.

Lemma quiet_ret {A} (a : A) : quiet (ret a).
Proof. constructor. Qed.

Lemma quiet_eval {A} (r : res A) : quiet (eval r).
Proof. constructor. Qed.

Lemma quiet_report l msg : quiet (report l msg).
Proof. by repeat constructor. Qed.

Lemma quiet_bind {A B} (m : W A) (k : A -> W B) :
  quiet m -> (forall a, quiet (k a)) -> quiet (bind m k).
Proof.
  unfold quiet, reports_only. destruct m as [[a|e] evs]; cbn; [|done].
  intros Hm Hk. specialize (Hk a). destruct (k a) as [r evs'].
  by apply Forall_app.
Qed.

Lemma quiet_py_and (a b : W bool) : quiet a -> quiet b -> quiet (py_and a b).
Proof.
  intros Ha Hb. apply quiet_bind; [done|]. intros []; [done|apply quiet_ret].
Qed.

Lemma quiet_has_nonempty k v : quiet (has_nonempty k v).
Proof. apply quiet_py_and; apply quiet_eval. Qed.

Lemma quiet_has_path k1 k2 v : quiet (has_path k1 k2 v).
Proof. apply quiet_py_and; apply quiet_eval. Qed.

Lemma tame_bind {A} (m : W A) (k : A -> W pyval) :
  quiet m -> (forall a, tame (k a)) -> tame (bind m k).
Proof.
  intros Hm Hk. split; [|apply quiet_bind; [done|apply Hk]].
  destruct m as [[a|e] evs]; cbn; [|done].
  destruct (Hk a) as [Hr _]. by destruct (k a).
Qed.

Lemma tame_fail l msg : tame (report l msg ;; ret PyNone).
Proof. split; [by left | by repeat constructor]. Qed.

Lemma tame_clean content : tame (eval (extract_script content)).
Proof.
  split; [|apply quiet_eval]. unfold eval, fst.
  destruct (extract_script content) as [v|e] eqn:E; [|done].
  right. unfold extract_script in E.
  destruct (log_preview content) as [[]|]; [|discriminate E].
  cbn [bind res_Seq] in E. destruct content; try discriminate E.
  rewrite clean_and_return_str in E.
  destruct (has_surrogate _); [discriminate E|]. injection E as <-.
  eexists. split; [done|apply strip_idem].
Qed.

Lemma tame_simple_api_error name r : tame (simple_api_error repr name r).
Proof. apply tame_fail. Qed.

Lemma tame_typed_api_error name t1 m1 t2 m2 r :
  tame (typed_api_error repr name t1 m1 t2 m2 r).
Proof. apply tame_fail. Qed.

Lemma tame_if (b : bool) (m1 m2 : W pyval) :
  tame m1 -> tame m2 -> tame (if b then m1 else m2).
Proof. by destruct b. Qed.

Ltac tame_step :=
  first
    [ apply tame_fail | apply tame_clean | apply tame_simple_api_error
    | apply tame_typed_api_error | apply quiet_eval | apply quiet_has_nonempty
    | apply quiet_has_path
    | apply tame_if
    | apply tame_bind; [|intros ?] ].

Lemma tame_chat_completion_text name r : tame (chat_completion_text name r).
Proof. unfold chat_completion_text. repeat tame_step. Qed.

Lemma handler_of_one {T} (c : pyexn -> bool) (h : pyexn -> T) e m :
  handler_of [(c, h)] e = Some m -> m = h e.
Proof. cbn. destruct (c e); congruence. Qed.

Lemma try_except_events {A} (m : W A)
    (cl : list ((pyexn -> bool) * (pyexn -> W A))) :
  (forall e (h : W A), handler_of cl e = Some h -> quiet h) ->
  exists extra, snd (try_except m cl) = snd m ++ extra /\ reports_only extra.
Proof.
  intros Hcl. destruct m as [[a|e] evs]; cbn.
  - exists []. split; [by rewrite app_nil_r | constructor].
  - pose proof (Hcl e) as He.
    destruct (handler_of cl e) as [[r evs']|].
    + exists evs'. split; [done|]. apply (He _ eq_refl).
    + exists []. split; [by rewrite app_nil_r | constructor].
Qed.

Lemma try_except_result (m : W pyval)
    (cl : list ((pyexn -> bool) * (pyexn -> W pyval))) :
  none_or_clean (fst m) ->
  (forall e (h : W pyval), handler_of cl e = Some h -> none_or_clean (fst h)) ->
  none_or_clean (fst (try_except m cl)).
Proof.
  intros Hm Hcl. destruct m as [[a|e] evs]; cbn; [exact Hm|].
  pose proof (Hcl e) as He.
  destruct (handler_of cl e) as [[r evs']|]; [|exact I].
  apply (He _ eq_refl).
Qed.

(** A request followed by code that sends nothing. *)
Lemma post_then_quiet {A} req (k : response -> W A) :
  (forall r, quiet (k r)) ->
  exists reports,
    snd (bind (post requests_post req) k) = HttpPost req :: reports
    /\ reports_only reports.
Proof.
  intros Hk. unfold post. cbn. destruct (requests_post req) as [r|e].
  - specialize (Hk r). destruct (k r) as [x evs]. by exists evs.
  - exists []. split; [done | constructor].
Qed.

Lemma post_then_tame req (k : response -> W pyval) :
  (forall r, tame (k r)) ->
  none_or_clean (fst (bind (post requests_post req) k)).
Proof.
  intros Hk. unfold post. cbn. destruct (requests_post req) as [r|e]; [|done].
  destruct (Hk r) as [Hr _]. by destruct (k r).
Qed.

(** The call of a keyed provider: the guard, then the request and code
    that is tame. *)
Lemma keyed_call_shape props :
  requires_credential (api_provider props) = true ->
  exists k : response -> W pyval,
    (forall r, tame (k r))
    /\ match api_provider props with
       | GEMINI => call_gemini_api repr requests_post props
       | GROQ => call_groq_api repr requests_post props
       | OPENAI => call_openai_api repr requests_post props
       | ANTHROPIC => call_anthropic_api repr requests_post props
       | CUSTOM => call_custom_api builtin_msg requests_post props
       end
       = if key_missing props then
           report ERROR (lit "Please enter your "
                         ++ lit (provider_name (api_provider props))
                         ++ lit " API key") ;;
           ret PyNone
         else bind (post requests_post (provider_request props)) k.
Proof.
  intros Hreq. unfold provider_request.
  destruct (api_provider props); try discriminate Hreq.
  - eexists. split; [|reflexivity]. intros r. cbv beta. repeat tame_step.
  - eexists. split; [|reflexivity]. intros r. cbv beta.
    apply tame_if; [apply tame_chat_completion_text|apply tame_simple_api_error].
  - eexists. split; [|reflexivity]. intros r. cbv beta.
    apply tame_if; [apply tame_chat_completion_text|apply tame_typed_api_error].
  - eexists. split; [|reflexivity]. intros r. cbv beta. repeat tame_step.
Qed.

Lemma api_error_handler_tame e (h : W pyval) :
  handler_of
    [ (exc_Exception,
       fun e => report ERROR (lit "API Error: " ++ exn_str builtin_msg e) ;;
                ret PyNone) ] e = Some h ->
  tame h.
Proof. intros ->%handler_of_one. apply tame_fail. Qed.

(** X2: a call sends at most one HTTP request, before any report, and it
    is the request of the selected provider: exactly one when the
    provider is CUSTOM or the key is not blank, none otherwise.  Nothing
    is retried, whatever the response or the failure. *)
Theorem one_request_at_most props :
  exists reports,
    reports_only reports
    /\ snd (call_api props)
       = (if sends_request props then [HttpPost (provider_request props)]
          else [])
         ++ reports.
Proof.
  unfold call_api, sends_request.
  match goal with |- context [try_except ?m ?cl] =>
    destruct (try_except_events m cl) as (extra & -> & Hextra)
  end.
  { intros e h Hh. by destruct (api_error_handler_tame e h Hh). }
  destruct (requires_credential (api_provider props)) eqn:Hreq.
  - destruct (keyed_call_shape props Hreq) as (k & Hk & ->).
    destruct (key_missing props); cbn [andb negb].
    + exists (Report ERROR (lit "Please enter your "
                         ++ lit (provider_name (api_provider props))
                         ++ lit " API key") :: extra).
      split; [by constructor | reflexivity].
    + destruct (post_then_quiet (provider_request props) k) as (reports & -> & Hr).
      { intros r. apply Hk. }
      exists (reports ++ extra). split; [by apply Forall_app|done].
  - cbn [andb negb]. unfold provider_request.
    destruct (api_provider props); try discriminate Hreq.
    unfold call_custom_api.
    match goal with |- context [try_except ?m ?cl] =>
      destruct (try_except_events m cl) as (extra' & -> & Hextra')
    end.
    { intros e h. cbn. destruct (exc_RequestException e).
      - intros [= <-]. by repeat constructor.
      - destruct (exc_JSONDecodeError e); [|done].
        intros [= <-]. by repeat constructor. }
    match goal with |- context [bind (post _ ?req) ?k] =>
      destruct (post_then_quiet req k) as (reports & -> & Hr)
    end.
    { intros r. destruct (bool_decide _).
      - apply quiet_bind; [apply quiet_eval|intros; apply quiet_eval].
      - by repeat constructor. }
    exists ((reports ++ extra') ++ extra). split; [|by rewrite <- !app_assoc].
    apply Forall_app. split; [|done]. apply Forall_app. by split.
Qed.

(** X3: what the call of a keyed provider (GEMINI, GROQ, OPENAI,
    ANTHROPIC) returns is [None] or a string without whitespace at either
    end, whatever the server answers. *)
Theorem keyed_call_returns_clean props v :
  requires_credential (api_provider props) = true ->
  fst (call_api props) = Ret v ->
  v = PyNone \/ exists s, v = PyStr s /\ is_stripped s.
Proof.
  intros Hreq Hv.
  assert (none_or_clean (fst (call_api props))) as Hclean;
    [|by rewrite Hv in Hclean].
  unfold call_api. apply try_except_result.
  - destruct (keyed_call_shape props Hreq) as (k & Hk & ->).
    destruct (key_missing props); [by left|]. by apply post_then_tame.
  - intros e h Hh. by destruct (api_error_handler_tame e h Hh).
Qed.


(** X5: in the custom call, an [Exception] raised by [requests.post] or
    by [response.json()] on a 200 response gives [None] and one message,
    chosen by the first clause that accepts it: "Network Error: ..." for a
    [RequestException], even when it is a JSON decoding error too, else
    "Invalid JSON response from API" for a [JSONDecodeError], else the
    "API Error: ..." of [call_api]. *)
Theorem custom_failure_reported props e :
  api_provider props = CUSTOM ->
  requests_post (provider_request props) = Raise e
  \/ (exists r, requests_post (provider_request props) = Ret r
                /\ status_code r = 200%Z /\ json r = Raise e) ->
  exc_Exception e = true ->
  call_api props
  = (Ret PyNone,
     [ HttpPost (provider_request props);
       Report ERROR (custom_failure_message builtin_msg e) ]).
Proof.
  intros Hp Hfail He.
  unfold call_api, provider_request, custom_failure_message in *.
  rewrite Hp in *. unfold call_custom_api.
  destruct Hfail as [Hpost | (r & Hpost & Hstatus & Hjson)].
  - unfold post. cbn. rewrite Hpost. cbn.
    destruct (exc_RequestException e); [done|].
    destruct (exc_JSONDecodeError e); [done|]. cbn. by rewrite He.
  - rewrite (bind_post _ _ _ _ Hpost), Hstatus.
    rewrite bool_decide_eq_true_2 by done. rewrite Hjson. cbn.
    destruct (exc_RequestException e); [done|].
    destruct (exc_JSONDecodeError e); [done|]. cbn. by rewrite He.
Qed.

(** X6: for OPENAI and GROQ, a 200 response whose first choice has a
    message whose [content] is not a string ([null], a number, a list,
    an object) never yields a script: the clean-up raises, and the call
    returns [None] with an "API Error: ..." message. *)
Theorem chat_content_not_text (props : AIGenProperties) (r : response)
    (d c m : gmap pystr pyval) (rest : list pyval) (v : pyval) :
  api_provider props = OPENAI \/ api_provider props = GROQ ->
  forallb is_space (api_key props) = false ->
  requests_post (provider_request props) = Ret r ->
  status_code r = 200%Z ->
  json r = Ret (PyDict d) ->
  d !! lit "choices" = Some (PyList (PyDict c :: rest)) ->
  c !! lit "message" = Some (PyDict m) ->
  m !! lit "content" = Some v ->
  (forall s, v <> PyStr s) ->
  exists b,
    call_api props
    = (Ret PyNone,
       [ HttpPost (provider_request props);
         Report ERROR (lit "API Error: " ++ builtin_msg b) ]).
Proof.
  intros Hp Hkey Hpost Hstatus Hjson Hd Hc Hm Hv.
  apply key_present_iff in Hkey.
  assert (forall name, exists b,
            chat_completion_text name r = (Raise (Builtin b), [])) as Hchat.
  { intros name. unfold chat_completion_text. rewrite Hjson.
    cbn [eval bind W_Seq py_keys app]. rewrite has_nonempty_dict, Hd.
    cbn. rewrite Hd. cbn. rewrite has_path_dict, Hc. cbn. rewrite Hm. cbn.
    rewrite bool_decide_eq_true_2 by lia. unfold clean_content.
    destruct v; try (by eexists); by destruct (Hv s). }
  unfold call_api, provider_request in *.
  destruct Hp as [Hp | Hp]; rewrite Hp in *.
  - destruct (Hchat "OpenAI") as (b & Hb). exists b.
    unfold call_openai_api. rewrite Hkey, (bind_post _ _ _ _ Hpost), Hstatus.
    rewrite bool_decide_eq_true_2 by done. by rewrite Hb.
  - destruct (Hchat "Groq") as (b & Hb). exists b.
    unfold call_groq_api. rewrite Hkey, (bind_post _ _ _ _ Hpost), Hstatus.
    rewrite bool_decide_eq_true_2 by done. by rewrite Hb.
Qed.



End MoreAdapter.

(** ** The generate operator *)

Section MoreOperator.

Context {H : Host}.
Variable repr : pyval -> pystr.
Variable builtin_msg : builtin_error -> pystr.
Variable requests_post : http_request -> res response.

Local Abbreviation call_api := (call_api repr builtin_msg requests_post).
Local Abbreviation execute := (execute repr builtin_msg requests_post).
Local Abbreviation execute_script := (execute_script builtin_msg).

#[local] Arguments lit : simpl never.
#[local] Arguments strip : simpl never.
#[local] Arguments str_of_int : simpl never.

(** X9: with a prompt that is empty or made of whitespace only, the
    operator asks for a prompt and ends CANCELLED at once: no request is
    sent, whatever the provider and the key, and the scene is untouched. *)
Theorem blank_prompt_rejected props s :
  forallb is_space (prompt props) = true ->
  execute props s
  = (Ret CANCELLED, [Report ERROR (lit "Please enter a prompt")], s).
Proof.
  intros Hp. unfold execute. rewrite bool_decide_eq_true_2; [done|].
  by apply strip_nil_iff.
Qed.

(** X10: the outcome of the operator and its last message agree, on every
    run that returns: FINISHED comes with "Model generated successfully!"
    as the last report, CANCELLED with an ERROR report as the last one. *)
Theorem execute_outcome_reported props s :
  match execute props s with
  | (Ret FINISHED, evs, _) =>
      last evs = Some (Report INFO (lit "Model generated successfully!"))
  | (Ret CANCELLED, evs, _) => exists msg, last evs = Some (Report ERROR msg)
  | (Raise _, _, _) => True
  end.
Proof.
  destruct (forallb is_space (prompt props)) eqn:Hp.
  - unfold execute. rewrite bool_decide_eq_true_2 by by apply strip_nil_iff.
    by eexists.
  - rewrite (execute_with_prompt repr builtin_msg requests_post props s Hp).
    cbv zeta.
    assert (forall e evs (s' : scene),
              match (if exc_Exception e then
                       match py_str builtin_msg e with
                       | Ret msg =>
                           (match print_exn e with
                            | Ret _ => Ret CANCELLED
                            | Raise e' => Raise e'
                            end,
                            Report INFO (lit "Generating model for: "
                                         ++ prompt props)
                              :: evs ++ [Report ERROR (lit "Error: " ++ msg)],
                            s')
                       | Raise e' =>
                           (Raise e',
                            Report INFO (lit "Generating model for: "
                                         ++ prompt props) :: evs, s')
                       end
                     else
                       (Raise e,
                        Report INFO (lit "Generating model for: " ++ prompt props)
                          :: evs, s'))
              with
              | (Ret FINISHED, evs, _) =>
                  last evs
                  = Some (Report INFO (lit "Model generated successfully!"))
              | (Ret CANCELLED, evs, _) =>
                  exists msg, last evs = Some (Report ERROR msg)
              | (Raise _, _, _) => True
              end) as Hfailed.
    { intros e evs s'. destruct (exc_Exception e) eqn:He; [|done].
      destruct (py_str builtin_msg e) as [msg|e']; [|done].
      destruct (print_exn e) as [[]|e']; [|done].
      eexists. rewrite app_comm_cons. apply last_snoc. }
    destruct (call_api props) as [[v|e] evs]; [|apply Hfailed].
    destruct (script_present v) as [[|]|e]; [| |apply Hfailed].
    + destruct (print_value v) as [[]|e]; [|apply Hfailed].
      destruct (execute_script v props s) as [[[u|e] evs'] s']; [|apply Hfailed].
      rewrite app_comm_cons, app_assoc. apply last_snoc.
    + eexists. rewrite app_comm_cons. apply last_snoc.
Qed.

(** X11: for CUSTOM, a 200 response whose [script] is not a string but
    is truthy (a number, a list, an object) is never executed: the test
    on the script raises, the operator reports "Error: ..." and ends
    CANCELLED with the scene untouched. *)
Theorem custom_script_not_text (props : AIGenProperties) (r : response)
    (d : gmap pystr pyval) (v : pyval) (s : scene) :
  api_provider props = CUSTOM ->
  forallb is_space (prompt props) = false ->
  requests_post (provider_request props) = Ret r ->
  status_code r = 200%Z ->
  json r = Ret (PyDict d) ->
  d !! lit "script" = Some v ->
  truthy v = true ->
  (forall code, v <> PyStr code) ->
  execute props s
  = (Ret CANCELLED,
     [ Report INFO (lit "Generating model for: " ++ prompt props);
       HttpPost (provider_request props);
       Report ERROR (lit "Error: " ++ builtin_msg (AttributeError "strip")) ],
     s).
Proof.
  intros Hp Hprompt Hpost Hstatus Hjson Hd Hv Hnot.
  rewrite (execute_with_prompt repr builtin_msg requests_post props s Hprompt). cbv zeta.
  assert (call_api props = (Ret v, [HttpPost (provider_request props)])) as ->.
  { unfold call_api, provider_request in *. rewrite Hp in *.
    unfold call_custom_api. rewrite (bind_post _ _ _ _ Hpost), Hstatus.
    rewrite bool_decide_eq_true_2 by done. rewrite Hjson. cbn. by rewrite Hd. }
  unfold script_present. rewrite Hv.
  destruct v; try done. by destruct (Hnot s0).
Qed.

(** X12: when the scene is to be cleared and the delete operator refuses
    to run, with an error whose text can be printed, a script that the
    console can print is not executed and no collection is created; the
    failure is reported as a script execution error, and the operator
    still reports success and returns FINISHED. *)
Theorem clear_failure_still_success props code evs s s1 s2 e :
  forallb is_space (prompt props) = false ->
  call_api props = (Ret (PyStr code), evs) ->
  forallb is_space code = false ->
  has_surrogate code = false ->
  auto_clear props = true ->
  ops_object_select_all s = (Ret tt, s1) ->
  ops_object_delete s1 = (Raise e, s2) ->
  exc_Exception e = true ->
  printable e = true ->
  execute props s
  = (Ret FINISHED,
     Report INFO (lit "Generating model for: " ++ prompt props)
       :: evs
       ++ [ Report ERROR (lit "Script execution error: "
                          ++ exn_str builtin_msg e);
            Report INFO (lit "Model generated successfully!") ],
     s2).
Proof.
  intros Hp Hcall Hcode Hs Hclear Hselect Hdelete He Hprint.
  rewrite (execute_with_prompt repr builtin_msg requests_post props s Hp).
  cbv zeta.
  rewrite Hcall, script_present_str, Hcode. cbn [negb print_value].
  unfold py_print. rewrite Hs.
  assert (execute_script (PyStr code) props s
          = (Ret tt,
             [Report ERROR (lit "Script execution error: "
                            ++ exn_str builtin_msg e)], s2)) as ->.
  { unfold execute_script, try_exceptM, clear_scene.
    rewrite Hclear. cbn [bind M_Seq liftW eval fst snd py_len].
    unfold host at 1. rewrite Hselect. unfold host at 1. rewrite Hdelete.
    cbn [handler_of]. rewrite He.
    cbn [bind M_Seq liftW eval report fst snd].
    destruct e as [b|cl msg|cl e']; [done| |done].
    cbn [py_str print_exn exn_str printable] in *. unfold py_print.
    by destruct (has_surrogate msg). }
  done.
Qed.


End MoreOperator.

(** ** The connection test *)

Section MoreConnection.

Variable builtin_msg : builtin_error -> pystr.
Variable requests_post : http_request -> res response.
Variable requests_get : pystr -> Z -> res response.

Local Abbreviation test_connection :=
  (test_connection builtin_msg requests_post requests_get).

#[local] Arguments lit : simpl never.
#[local] Arguments strip : simpl never.
#[local] Arguments str_of_int : simpl never.

(** The keyed branches of the test are one branch, by the provider. *)
Lemma test_connection_keyed props req :
  test_request props = Some req ->
  test_connection props
  = (returned <-
       try_exceptT
         (test_keyed requests_post (provider_name (api_provider props)) req props)
         [ (exc_Exception,
            fun e => reportT ERROR (lit "Connection failed: "
                                    ++ exn_str builtin_msg e) ;;
                     ret None) ] ;;
     match returned with
     | Some r => ret r
     | None => ret FINISHED
     end).
Proof.
  unfold test_request, test_connection.
  by destruct (api_provider props); intros [= <-].
Qed.

(** X14: for GEMINI, GROQ, OPENAI and ANTHROPIC, the connection test
    with a key that is empty or made of whitespace only asks for the key
    with the message of the generate call, sends nothing and ends
    CANCELLED. *)
Theorem test_blank_key props :
  requires_credential (api_provider props) = true ->
  forallb is_space (api_key props) = true ->
  test_connection props
  = (Ret CANCELLED,
     [Ev (Report ERROR (lit "Please enter your "
                        ++ lit (provider_name (api_provider props))
                        ++ lit " API key"))]).
Proof.
  intros Hreq Hkey. apply key_missing_iff in Hkey.
  destruct (test_request props) as [req|] eqn:Hr.
  - rewrite (test_connection_keyed props req Hr). unfold test_keyed.
    by rewrite Hkey.
  - unfold test_request in Hr. by destruct (api_provider props).
Qed.

(** X15: for a keyed provider with a key, the connection test sends its
    one request and judges by the status alone, without reading the body:
    200 is reported as a success, any other status as "<Provider> API
    error: <status>", and the test ends FINISHED in both cases. *)
Theorem test_judges_by_status props req r :
  test_request props = Some req ->
  forallb is_space (api_key props) = false ->
  requests_post req = Ret r ->
  test_connection props
  = (Ret FINISHED,
     [ Ev (HttpPost req);
       Ev (if bool_decide (status_code r = 200%Z) then
             Report INFO (lit (provider_name (api_provider props))
                          ++ lit " API connection successful!")
           else
             Report ERROR (lit (provider_name (api_provider props))
                           ++ lit " API error: "
                           ++ str_of_int (status_code r))) ]).
Proof.
  intros Hreq Hkey Hpost. apply key_present_iff in Hkey.
  rewrite (test_connection_keyed props req Hreq). unfold test_keyed, postT.
  rewrite Hkey. cbn. rewrite Hpost. cbn.
  by destruct (bool_decide (status_code r = 200%Z)).
Qed.

(** X16: for CUSTOM, the connection test is a GET of the endpoint with a
    timeout of 5 and without the key; 200 is reported as a success, any
    other status as a WARNING, and the test ends FINISHED. *)
Theorem test_custom_get props r :
  api_provider props = CUSTOM ->
  requests_get (api_url props) 5 = Ret r ->
  test_connection props
  = (Ret FINISHED,
     [ HttpGet (api_url props) 5;
       Ev (if bool_decide (status_code r = 200%Z) then
             Report INFO (lit "Custom API connection successful!")
           else
             Report WARNING (lit "Custom API returned status: "
                             ++ str_of_int (status_code r))) ]).
Proof.
  intros Hp Hget. unfold test_connection, getT. rewrite Hp. cbn.
  rewrite Hget. cbn. by destruct (bool_decide (status_code r = 200%Z)).
Qed.

(** X17: when the request of the connection test raises an [Exception]
    (timeout, refused connection), the test reports "Connection failed:
    ..." and still ends FINISHED. *)
Theorem test_connection_failed props e :
  exc_Exception e = true ->
  match test_request props with
  | Some req =>
      forallb is_space (api_key props) = false ->
      requests_post req = Raise e ->
      test_connection props
      = (Ret FINISHED,
         [ Ev (HttpPost req);
           Ev (Report ERROR (lit "Connection failed: "
                             ++ exn_str builtin_msg e)) ])
  | None =>
      requests_get (api_url props) 5 = Raise e ->
      test_connection props
      = (Ret FINISHED,
         [ HttpGet (api_url props) 5;
           Ev (Report ERROR (lit "Connection failed: "
                             ++ exn_str builtin_msg e)) ])
  end.
Proof.
  intros He. destruct (test_request props) as [req|] eqn:Hreq.
  - intros Hkey Hpost. apply key_present_iff in Hkey.
    rewrite (test_connection_keyed props req Hreq). unfold test_keyed, postT.
    rewrite Hkey. cbn. rewrite Hpost. cbn. by rewrite He.
  - intros Hget. unfold test_request in Hreq. unfold test_connection, getT.
    destruct (api_provider props); try discriminate Hreq.
    cbn. rewrite Hget. cbn. by rewrite He.
Qed.

(** X18: the connection test ends CANCELLED exactly when a keyed provider
    has a blank key; on every other run it ends FINISHED, whether the
    connection worked or not, unless an exception that is not an
    [Exception] passes through. *)
Theorem test_connection_outcome props :
  match fst (test_connection props) with
  | Ret CANCELLED => sends_request props = false
  | Ret FINISHED => sends_request props = true
  | Raise e => exc_Exception e = false
  end.
Proof.
  unfold sends_request.
  destruct (test_request props) as [req|] eqn:Hreq.
  - rewrite (test_connection_keyed props req Hreq).
    assert (requires_credential (api_provider props) = true) as ->.
    { unfold test_request in Hreq. by destruct (api_provider props). }
    unfold test_keyed, postT. destruct (key_missing props); [done|].
    cbn. destruct (requests_post req) as [r|e]; cbn.
    + by destruct (bool_decide (status_code r = 200%Z)).
    + by destruct (exc_Exception e) eqn:He.
  - unfold test_request in Hreq. unfold test_connection, getT.
    destruct (api_provider props); try discriminate Hreq.
    cbn. destruct (requests_get (api_url props) 5) as [r|e]; cbn.
    + by destruct (bool_decide (status_code r = 200%Z)).
    + by destruct (exc_Exception e) eqn:He.
Qed.

End MoreConnection.

(** ** The panel *)

Lemma lit_provider_id_inj p q :
  PyStr (lit (provider_id p)) = PyStr (lit (provider_id q)) -> p = q.
Proof. by destruct p, q. Qed.

(** X19: the panel shows a field for every setting the two operators
    read: two groups of settings that agree on the fields drawn for the
    first make the generate operator and the connection test behave in
    the same way. *)
Theorem drawn_fields_decide {H : Host} repr builtin_msg requests_post
    requests_get (props props' : AIGenProperties) :
  (forall name, In name (drawn_fields props) ->
     setting props name = setting props' name) ->
  execute repr builtin_msg requests_post props
  = execute repr builtin_msg requests_post props'
  /\ test_connection builtin_msg requests_post requests_get props
     = test_connection builtin_msg requests_post requests_get props'.
Proof.
  intros Hsame.
  assert (api_provider props = api_provider props') as Hp.
  { apply lit_provider_id_inj.
    assert (In "api_provider" (drawn_fields props)) as Hin
      by (unfold drawn_fields; cbn; destruct (api_provider props); cbn; tauto).
    pose proof (Hsame _ Hin) as Hs. cbn in Hs. congruence. }
  assert (prompt props = prompt props' /\ auto_clear props = auto_clear props'
          /\ api_key props = api_key props') as (Hprompt & Hclear & Hkey).
  { assert (forall name, In name ["prompt"; "auto_clear"; "api_key"] ->
              In name (drawn_fields props)) as Hin.
    { intros name Hn. unfold drawn_fields. cbn in *.
      destruct (api_provider props); cbn; tauto. }
    repeat split.
    - pose proof (Hsame "prompt" (Hin "prompt" ltac:(cbn; tauto))) as Hs.
      cbn in Hs. congruence.
    - pose proof (Hsame "auto_clear" (Hin "auto_clear" ltac:(cbn; tauto))) as Hs.
      cbn in Hs. congruence.
    - pose proof (Hsame "api_key" (Hin "api_key" ltac:(cbn; tauto))) as Hs.
      cbn in Hs. congruence. }
  assert (match api_provider props with
          | GEMINI => True
          | GROQ => groq_model props = groq_model props'
          | OPENAI => openai_model props = openai_model props'
          | ANTHROPIC => anthropic_model props = anthropic_model props'
          | CUSTOM => api_url props = api_url props'
          end) as Hfield.
  { unfold drawn_fields in Hsame. cbn in Hsame.
    destruct (api_provider props); [done| | | |].
    - specialize (Hsame "groq_model" ltac:(cbn; tauto)). cbn in Hsame. congruence.
    - specialize (Hsame "openai_model" ltac:(cbn; tauto)). cbn in Hsame. congruence.
    - specialize (Hsame "anthropic_model" ltac:(cbn; tauto)). cbn in Hsame. congruence.
    - specialize (Hsame "api_url" ltac:(cbn; tauto)). cbn in Hsame. congruence. }
  clear Hsame.
  destruct props as [p1 pr1 g1 o1 a1 u1 k1 c1], props' as [p2 pr2 g2 o2 a2 u2 k2 c2].
  cbn in *. subst.
  destruct pr2; subst; split; reflexivity.
Qed.

(** ** The further properties on the fixtures *)

Import MoreFixtures.

Lemma keyed_call_returns_clean_witness :
  PyStr (lit "X") = PyNone
  \/ exists s, PyStr (lit "X") = PyStr s /\ is_stripped s.
Proof.
  apply (keyed_call_returns_clean no_repr no_msg
           (answers (Response 200 [] (Ret gemini_fenced_body)))
           (settings GEMINI "key") (PyStr (lit "X")));
    reflexivity.
Defined.


Lemma custom_failure_reported_witness :
  call_with (not_json true) custom_settings
  = (Ret PyNone,
     [ HttpPost (custom_request custom_settings);
       Report ERROR (lit "Network Error: Expecting value") ])
  /\ call_with (not_json false) custom_settings
     = (Ret PyNone,
        [ HttpPost (custom_request custom_settings);
          Report ERROR (lit "Invalid JSON response from API") ]).
Proof.
  split.
  - apply (custom_failure_reported no_repr no_msg (answers (not_json true))
             custom_settings
             (Thrown (ExnClass true true true) (lit "Expecting value")));
      try reflexivity.
    right. exists (not_json true). repeat split; reflexivity.
  - apply (custom_failure_reported no_repr no_msg (answers (not_json false))
             custom_settings
             (Thrown (ExnClass true false true) (lit "Expecting value")));
      try reflexivity.
    right. exists (not_json false). repeat split; reflexivity.
Defined.

Lemma chat_content_not_text_witness :
  exists b,
    call_with null_content (settings OPENAI "sk-1")
    = (Ret PyNone,
       [ HttpPost (openai_request (settings OPENAI "sk-1"));
         Report ERROR (lit "API Error: " ++ no_msg b) ]).
Proof.
  apply (chat_content_not_text no_repr no_msg (answers null_content)
           (settings OPENAI "sk-1") null_content null_content_body null_choice
           null_message [] PyNone);
    try reflexivity; try (by vm_compute).
  left. reflexivity.
Defined.



Lemma blank_prompt_rejected_witness :
  execute (H := test_host) no_repr no_msg (answers empty_object)
    {| prompt := lit "   "; api_provider := CUSTOM;
       groq_model := []; openai_model := []; anthropic_model := [];
       api_url := []; api_key := []; auto_clear := true |} old_scene
  = (Ret CANCELLED, [Report ERROR (lit "Please enter a prompt")], old_scene).
Proof.
  apply (blank_prompt_rejected (H := test_host)). reflexivity.
Defined.

Lemma custom_script_not_text_witness :
  execute_with number_script custom_settings old_scene
  = (Ret CANCELLED,
     [ Report INFO (lit "Generating model for: Create a simple cube");
       HttpPost (custom_request custom_settings);
       Report ERROR (lit "Error: ") ],
     old_scene).
Proof.
  apply (custom_script_not_text (H := test_host) no_repr no_msg
           (answers number_script) custom_settings number_script
           (list_to_map [(lit "script", PyInt 5)]) (PyInt 5) old_scene);
    try reflexivity; try discriminate.
Defined.

Lemma clear_failure_still_success_witness :
  execute (H := edit_mode_host) no_repr no_msg (answers two_cubes)
    custom_settings old_scene
  = (Ret FINISHED,
     [ Report INFO (lit "Generating model for: Create a simple cube");
       HttpPost (custom_request custom_settings);
       Report ERROR (lit "Script execution error: Operator bpy.ops.object.delete.poll() failed, context is incorrect");
       Report INFO (lit "Model generated successfully!") ],
     old_scene).
Proof.
  apply (clear_failure_still_success (H := edit_mode_host) no_repr no_msg
           (answers two_cubes) custom_settings (lit "cc")
           [HttpPost (custom_request custom_settings)] old_scene old_scene
           old_scene poll_failed);
    reflexivity.
Defined.

(** A script that the console cannot print is not run: the print of the
    received script raises, and the operator ends CANCELLED. *)
Example unprintable_script_not_run :
  execute (H := edit_mode_host) no_repr no_msg (answers unprintable_script)
    custom_settings old_scene
  = (Ret CANCELLED,
     [ Report INFO (lit "Generating model for: Create a simple cube");
       HttpPost (custom_request custom_settings);
       Report ERROR (lit "Error: ") ],
     old_scene).
Proof. reflexivity. Qed.


Lemma test_blank_key_witness :
  test_connection no_msg no_network (get_answers server_error)
    (settings ANTHROPIC " ")
  = (Ret CANCELLED,
     [Ev (Report ERROR (lit "Please enter your Anthropic API key"))]).
Proof.
  apply (test_blank_key no_msg no_network (get_answers server_error)
           (settings ANTHROPIC " "));
    reflexivity.
Defined.

Lemma test_judges_by_status_witness :
  test_connection no_msg (answers (not_json false)) (get_answers server_error)
    (settings GEMINI "key")
  = (Ret FINISHED,
     [ Ev (HttpPost (gemini_test_request (settings GEMINI "key")));
       Ev (Report INFO (lit "Gemini API connection successful!")) ]).
Proof.
  apply (test_judges_by_status no_msg (answers (not_json false))
           (get_answers server_error) (settings GEMINI "key")
           (gemini_test_request (settings GEMINI "key")) (not_json false));
    reflexivity.
Defined.

Lemma test_custom_get_witness :
  test_connection no_msg no_network (get_answers server_error) custom_settings
  = (Ret FINISHED,
     [ HttpGet (lit "http://localhost:8000/generate") 5;
       Ev (Report WARNING (lit "Custom API returned status: 500")) ]).
Proof.
  apply (test_custom_get no_msg no_network (get_answers server_error)
           custom_settings server_error);
    reflexivity.
Defined.

Lemma test_connection_failed_witness :
  test_connection no_msg no_network (get_answers server_error)
    (settings OPENAI "sk-1")
  = (Ret FINISHED,
     [ Ev (HttpPost (openai_test_request (settings OPENAI "sk-1")));
       Ev (Report ERROR (lit "Connection failed: Read timed out.")) ]).
Proof.
  apply (test_connection_failed no_msg no_network (get_answers server_error)
           (settings OPENAI "sk-1") timed_out eq_refl);
    reflexivity.
Defined.

Lemma drawn_fields_decide_witness :
  execute (H := test_host) no_repr no_msg (answers empty_object)
    (settings OPENAI "sk-1")
  = execute (H := test_host) no_repr no_msg (answers empty_object)
      other_hidden_settings.
Proof.
  apply (drawn_fields_decide (H := test_host) no_repr no_msg
           (answers empty_object) (get_answers server_error)
           (settings OPENAI "sk-1") other_hidden_settings).
  intros name Hin. cbn in Hin.
  repeat (destruct Hin as [<- | Hin]; [reflexivity|]). destruct Hin.
Defined.
